(** * reader-service-py: the query dispatcher and its three pipelines

    A shallow embedding of [reader-service-py/main.py]: the request handler
    subscribed to the request subject, and the three query pipelines it
    dispatches to (critical alerts, device health, temperature anomaly).

    Python values are an inductive type, floats are IEEE-754 binary64 values
    in the Standard Library's [spec_float], exceptions are a result type, and
    the two effects of the handler (querying the time-series store, replying
    on the bus) are recorded in a trace that the handlers thread through. *)

From Stdlib Require Import ZArith QArith List Sorted String Ascii Bool Lia SpecFloat
  DecimalString.
Import ListNotations.

Set Warnings "-register-all".
Local Open Scope string_scope.
Local Open Scope list_scope.
Local Open Scope Z_scope.

(** ** Python values, as [json.loads] builds them and [json.dumps] accepts them *)

Inductive pyval : Type :=
| PNone
| PBool (b : bool)
| PInt (z : Z)
| PFloat (f : spec_float)
| PStr (s : string)
| PList (items : list pyval)
| PDict (items : list (string * pyval)).

(** [type(v).__name__], as exception messages print it. *)
Definition type_name (v : pyval) : string :=
  match v with
  | PNone => "NoneType"
  | PBool _ => "bool"
  | PInt _ => "int"
  | PFloat _ => "float"
  | PStr _ => "str"
  | PList _ => "list"
  | PDict _ => "dict"
  end.

(** ** Exceptions *)

Inductive exn_class : Type :=
| KeyError
| TypeError
| ValueError
| AttributeError
| OverflowError
| ZeroDivisionError
| OtherError (name : string).

(** An exception instance: its class and the text [str(e)] gives. *)
Record exn : Type := Exn { exn_cls : exn_class; exn_str : string }.

(** The classes of the standard library that derive from [BaseException]
    without deriving from [Exception]; [asyncio.CancelledError] is one of
    them. *)
Definition outside_Exception : list string :=
  ["BaseException"; "BaseExceptionGroup"; "KeyboardInterrupt"; "SystemExit";
   "GeneratorExit"; "CancelledError"].

(** [isinstance(e, Exception)]: the exceptions [except Exception] catches. *)
Definition isinstance_Exception (e : exn) : bool :=
  match exn_cls e with
  | OtherError name => negb (existsb (String.eqb name) outside_Exception)
  | _ => true
  end.

Inductive result (A : Type) : Type :=
| Ok (a : A)
| Raise (e : exn).

Arguments Ok {A} a.
Arguments Raise {A} e.

(** ** Effects: the store queries issued, the log lines, the replies sent *)

Inductive event : Type :=
| Queried (flux org : string)
| Logged (text : string)
| Responded (payload : string).

Definition trace := list event.

(** A computation that may raise and that extends the trace. *)
Definition M (A : Type) : Type := trace -> result A * trace.

Class Monad (m : Type -> Type) : Type :=
  { ret : forall {A}, A -> m A;
    bind : forall {A B}, m A -> (A -> m B) -> m B }.

#[export] Instance Monad_result : Monad result :=
  { ret := fun A a => Ok a;
    bind := fun A B c k => match c with Ok a => k a | Raise e => Raise e end }.

#[export] Instance Monad_M : Monad M :=
  { ret := fun A a t => (Ok a, t);
    bind := fun A B c k t =>
              match c t with
              | (Ok a, t') => k a t'
              | (Raise e, t') => (Raise e, t')
              end }.

Notation "x <- c ;; k" := (bind c (fun x => k))
  (at level 61, c at next level, right associativity).
Notation "c ;;; k" := (bind c (fun _ => k))
  (at level 61, right associativity).

(** A pure, possibly raising, step inside a handler. *)
Definition lift {A} (r : result A) : M A := fun t => (r, t).

Definition emit (e : event) : M unit := fun t => (Ok tt, t ++ [e]).

(** [try: body except Exception as e: handler(e)]; what [body] did before it
    raised stays done, and an exception that is not an [Exception] passes
    through the clause. *)
Definition try_except {A} (body : M A) (handler : exn -> M A) : M A :=
  fun t =>
    match body t with
    | (Ok a, t') => (Ok a, t')
    | (Raise e, t') =>
        if isinstance_Exception e then handler e t' else (Raise e, t')
    end.

(** [for x in xs: s = body(s, x)], leaving the loop at the first exception. *)
Fixpoint for_each {A S} (xs : list A) (body : S -> A -> result S) (s : S)
  : result S :=
  match xs with
  | [] => Ok s
  | x :: xs' =>
      match body s x with
      | Ok s' => for_each xs' body s'
      | Raise e => Raise e
      end
  end.

(** ** Numbers *)

(** binary64 *)
Definition prec : Z := 53.
Definition emax : Z := 1024.

(** The values of [int] and [float]; [bool] is a subclass of [int]. *)
Inductive num : Type :=
| NInt (z : Z)
| NFloat (f : spec_float).

Definition as_num (v : pyval) : option num :=
  match v with
  | PBool b => Some (NInt (if b then 1 else 0))
  | PInt z => Some (NInt z)
  | PFloat f => Some (NFloat f)
  | _ => None
  end.

Definition num_val (n : num) : pyval :=
  match n with
  | NInt z => PInt z
  | NFloat f => PFloat f
  end.

(** [isinstance(v, (int, float))] *)
Definition isinstance_int_float (v : pyval) : bool :=
  match as_num v with
  | Some _ => true
  | None => false
  end.

(** The extended real a number denotes: [XFin m e] is [m * 2^e]. *)
Inductive xreal : Type :=
| XNan
| XInf (neg : bool)
| XFin (m e : Z).

Definition denote (n : num) : xreal :=
  match n with
  | NInt z => XFin z 0
  | NFloat (S754_zero _) => XFin 0 0
  | NFloat (S754_infinity s) => XInf s
  | NFloat S754_nan => XNan
  | NFloat (S754_finite s m e) => XFin (cond_Zopp s (Zpos m)) e
  end.

Definition fin_compare (m1 e1 m2 e2 : Z) : comparison :=
  let e := Z.min e1 e2 in
  (m1 * 2 ^ (e1 - e)) ?= (m2 * 2 ^ (e2 - e)).

(** Python compares an [int] with a [float] by value, exactly; a NaN is
    unordered with everything. *)
Definition xreal_compare (a b : xreal) : option comparison :=
  match a, b with
  | XNan, _ | _, XNan => None
  | XInf s1, XInf s2 =>
      Some (match s1, s2 with
            | true, false => Lt
            | false, true => Gt
            | _, _ => Eq
            end)
  | XInf s, XFin _ _ => Some (if s then Lt else Gt)
  | XFin _ _, XInf s => Some (if s then Gt else Lt)
  | XFin m1 e1, XFin m2 e2 => Some (fin_compare m1 e1 m2 e2)
  end.

Definition num_compare (a b : num) : option comparison :=
  xreal_compare (denote a) (denote b).

(** [a > b] *)
Definition num_gt (a b : num) : bool :=
  match num_compare a b with
  | Some Gt => true
  | _ => false
  end.

(** [a >= b] *)
Definition num_ge (a b : num) : bool :=
  match num_compare a b with
  | Some Gt | Some Eq => true
  | _ => false
  end.

(** [a == b] *)
Definition num_eq (a b : num) : bool :=
  match num_compare a b with
  | Some Eq => true
  | _ => false
  end.

(** [v != z] for an int literal [z]: a value that is not a number differs
    from every int. *)
Definition py_ne_int (v : pyval) (z : Z) : bool :=
  match as_num v with
  | Some n => negb (num_eq n (NInt z))
  | None => true
  end.

(** [v == s] for a string literal [s]. *)
Definition py_eq_str (v : pyval) (s : string) : bool :=
  match v with
  | PStr s' => String.eqb s' s
  | _ => false
  end.

(** [bool(v)], as [not v] and [if v] read a value. *)
Definition truthy (v : pyval) : bool :=
  match v with
  | PNone => false
  | PBool b => b
  | PInt z => negb (z =? 0)
  | PFloat (S754_zero _) => false
  | PFloat _ => true
  | PStr s => negb (String.eqb s "")
  | PList l => match l with [] => false | _ => true end
  | PDict l => match l with [] => false | _ => true end
  end.

(** The binary64 nearest to [n / d], ties to even, with sign [s]. *)
Definition nearest_ratio (s : bool) (n d : positive) : spec_float :=
  let '(mz, ez, lz) := SFdiv_core_binary prec emax (Zpos n) 0 (Zpos d) 0 in
  binary_round_aux prec emax s mz ez lz.

(** [float(z)] of an int. *)
Definition float_of_int (z : Z) : result spec_float :=
  match binary_normalize prec emax z 0 false with
  | S754_infinity _ => Raise (Exn OverflowError "int too large to convert to float")
  | f => Ok f
  end.

(** [a / b] on ints: true division, correctly rounded. *)
Definition int_truediv (a b : Z) : result spec_float :=
  if b =? 0 then Raise (Exn ZeroDivisionError "division by zero")
  else
    let neg := xorb (a <? 0) (b <? 0) in
    if a =? 0 then Ok (S754_zero neg)
    else
      match nearest_ratio neg (Z.to_pos (Z.abs a)) (Z.to_pos (Z.abs b)) with
      | S754_infinity _ =>
          Raise (Exn OverflowError "integer division result too large for a float")
      | f => Ok f
      end.

Definition is_zero (f : spec_float) : bool :=
  match f with
  | S754_zero _ => true
  | _ => false
  end.

(** [x / y] on floats. *)
Definition float_truediv (x y : spec_float) : result spec_float :=
  if is_zero y then Raise (Exn ZeroDivisionError "float division by zero")
  else Ok (SFdiv prec emax x y).

Definition to_float (n : num) : result spec_float :=
  match n with
  | NInt z => float_of_int z
  | NFloat f => Ok f
  end.

(** [a / b] *)
Definition py_truediv (a b : pyval) : result spec_float :=
  match as_num a, as_num b with
  | Some (NInt x), Some (NInt y) => int_truediv x y
  | Some x, Some y =>
      fx <- to_float x ;;
      fy <- to_float y ;;
      float_truediv fx fy
  | _, _ =>
      Raise (Exn TypeError
               ("unsupported operand type(s) for /: '" ++ type_name a
                  ++ "' and '" ++ type_name b ++ "'"))
  end.

(** The integer nearest to [a / b], ties to even, for [0 < b]. *)
Definition round_half_even (a b : Z) : Z :=
  let q := a / b in
  let r := a mod b in
  match 2 * r ?= b with
  | Lt => q
  | Gt => q + 1
  | Eq => if Z.even q then q else q + 1
  end.

(** [round(x, 2)] on a float: the value is rounded to two decimals exactly,
    ties to even, and the decimal is read back as the nearest float;
    infinities and NaN round to themselves. *)
Definition float_round2 (x : spec_float) : spec_float :=
  match x with
  | S754_finite s m e =>
      match round_half_even (100 * Zpos m * 2 ^ Z.max e 0) (2 ^ Z.max (- e) 0) with
      | Zpos p => nearest_ratio s p 100
      | _ => S754_zero s
      end
  | _ => x
  end.

(** [round(n, 2)]: an int rounds to itself. *)
Definition round2 (n : num) : num :=
  match n with
  | NInt z => NInt z
  | NFloat f => NFloat (float_round2 f)
  end.

(** [int(x)] of a float truncates towards zero. *)
Definition int_of_float (f : spec_float) : result Z :=
  match f with
  | S754_zero _ => Ok 0
  | S754_finite s m e =>
      Ok (cond_Zopp s (if 0 <=? e then Zpos m * 2 ^ e else Zpos m / 2 ^ (- e)))
  | S754_infinity _ =>
      Raise (Exn OverflowError "cannot convert float infinity to integer")
  | S754_nan => Raise (Exn ValueError "cannot convert float NaN to integer")
  end.

(** ** Strings *)

Definition dq : string := String (ascii_of_nat 34) EmptyString.
Definition sq : string := String (ascii_of_nat 39) EmptyString.
Definition nl : string := String (ascii_of_nat 10) EmptyString.

(** [str(z)] of an int *)
Definition str_of_int (z : Z) : string := NilZero.string_of_int (Z.to_int z).

(** ** The runtime around the handlers

    The library calls whose results the handlers only pass along, and the
    configuration read from the environment at start-up. *)

Class Runtime : Type :=
  { (** [json.loads(data.decode())]: the request a message body holds, or
        the decoding error *)
    json_loads : string -> result pyval;
    (** [json.dumps(response).encode()] *)
    json_dumps : pyval -> string;
    (** [repr(v)] *)
    py_repr : pyval -> string;
    (** [int(s)] of a string; [None] when the string is not an int literal *)
    int_of_str : string -> option Z;
    (** [float(s)] of a string; [None] when the string is not a float literal *)
    float_of_str : string -> option spec_float;
    (** [groupby(...).size()] of pandas on a key column that is not made of
        strings only: the pairs of key and count *)
    groupby_size_mixed : list pyval -> list (pyval * Z);
    INFLUXDB_BUCKET : string;
    INFLUXDB_ORG : string;
    (** what decoding raises ([UnicodeDecodeError], [JSONDecodeError],
        [RecursionError]) derives from [Exception] *)
    json_loads_raises :
      forall data e, json_loads data = Raise e -> isinstance_Exception e = true }.

(** ** The time-series store, as the InfluxDB client presents it *)

(** A [datetime], carried as the text [isoformat()] renders. *)
Record datetime : Type := { isoformat : string }.

(** A row of a query result. [_time] is the one column of type time the
    handlers read; the other columns are tags and fields, which the client
    decodes to [None], [bool], [int], [float] or [str]. *)
Record FluxRecord : Type :=
  { flux_time : option datetime;
    flux_values : list (string * pyval) }.

Record FluxTable : Type := { records : list FluxRecord }.

(** [query_api.query(flux, org=org)] *)
Definition query_api : Type := string -> string -> result (list FluxTable).

Fixpoint assoc (key : string) (kvs : list (string * pyval)) : option pyval :=
  match kvs with
  | [] => None
  | (k, v) :: kvs' => if String.eqb k key then Some v else assoc key kvs'
  end.

(** [record[key]] *)
Definition getitem (record : FluxRecord) (key : string) : result pyval :=
  match assoc key (flux_values record) with
  | Some v => Ok v
  | None => Raise (Exn KeyError (sq ++ key ++ sq))
  end.

Definition get_time (record : FluxRecord) : result datetime :=
  match flux_time record with
  | Some d => Ok d
  | None => Raise (Exn KeyError (sq ++ "_time" ++ sq))
  end.

Definition get_field (record : FluxRecord) : result pyval := getitem record "_field".

Definition get_value (record : FluxRecord) : result pyval := getitem record "_value".

Definition query (qapi : query_api) (flux org : string) : M (list FluxTable) :=
  fun t => (qapi flux org, t ++ [Queried flux org]).

(** ** pandas: [groupby(key).size()] on a column of strings

    The groups come out sorted by key, each with the number of its rows. *)

Fixpoint bump (k : string) (counts : list (string * Z)) : list (string * Z) :=
  match counts with
  | [] => [(k, 1)]
  | (k', n) :: rest =>
      match String.compare k k' with
      | Eq => (k', n + 1) :: rest
      | Lt => (k, 1) :: counts
      | Gt => (k', n) :: bump k rest
      end
  end.

Definition count_sorted (keys : list string) : list (string * Z) :=
  fold_left (fun counts k => bump k counts) keys [].

(** The strings of a column, when every entry is a string. *)
Fixpoint all_str (keys : list pyval) : option (list string) :=
  match keys with
  | [] => Some []
  | PStr s :: keys' =>
      match all_str keys' with
      | Some names => Some (s :: names)
      | None => None
      end
  | _ :: _ => None
  end.

(** ** The handlers of [main.py] *)

Section Handlers.

Context {rt : Runtime}.

(** [str(v)], as an f-string formats a value. *)
Definition py_str (v : pyval) : string :=
  match v with
  | PNone => "None"
  | PBool true => "True"
  | PBool false => "False"
  | PInt z => str_of_int z
  | PStr s => s
  | _ => py_repr v
  end.

(** [int(v)] *)
Definition py_int (v : pyval) : result Z :=
  match v with
  | PBool b => Ok (if b then 1 else 0)
  | PInt z => Ok z
  | PFloat f => int_of_float f
  | PStr s =>
      match int_of_str s with
      | Some z => Ok z
      | None =>
          Raise (Exn ValueError
                   ("invalid literal for int() with base 10: " ++ py_repr v))
      end
  | _ =>
      Raise (Exn TypeError
               ("int() argument must be a string, a bytes-like object or a real number, not '"
                  ++ type_name v ++ sq))
  end.

(** [float(v)] *)
Definition py_float (v : pyval) : result spec_float :=
  match v with
  | PBool b => float_of_int (if b then 1 else 0)
  | PInt z => float_of_int z
  | PFloat f => Ok f
  | PStr s =>
      match float_of_str s with
      | Some f => Ok f
      | None =>
          Raise (Exn ValueError ("could not convert string to float: " ++ py_repr v))
      end
  | _ =>
      Raise (Exn TypeError
               ("float() argument must be a string or a real number, not '"
                  ++ type_name v ++ sq))
  end.

(** [obj.get(key, default)]: only a dict has the method. *)
Definition py_get (obj : pyval) (key : string) (default : pyval) : result pyval :=
  match obj with
  | PDict kvs =>
      Ok (match assoc key kvs with
          | Some v => v
          | None => default
          end)
  | _ =>
      Raise (Exn AttributeError
               (sq ++ type_name obj ++ "' object has no attribute 'get'"))
  end.

Definition error_response (message : string) : pyval :=
  PDict [("status", PStr "error"); ("message", PStr message)].

Definition success_response (data : pyval) : pyval :=
  PDict [("status", PStr "success"); ("data", data)].

(** *** [handle_alerts_critical] *)

Definition alerts_flux (start_range : string) (min_crit : Z) : string :=
  nl ++ "    from(bucket: " ++ dq ++ INFLUXDB_BUCKET ++ dq ++ ")"
  ++ nl ++ "      |> range(start: " ++ start_range ++ ")"
  ++ nl ++ "      |> filter(fn: (r) => r._measurement == " ++ dq ++ "events" ++ dq ++ ")"
  ++ nl ++ "      |> filter(fn: (r) => r.criticality_level >= " ++ str_of_int min_crit ++ ")"
  ++ nl ++ "      |> sort(columns: [" ++ dq ++ "_time" ++ dq ++ "], desc: true)"
  ++ nl ++ "      |> keep(columns: [" ++ dq ++ "_time" ++ dq ++ ", " ++ dq ++ "event_id" ++ dq
  ++ ", " ++ dq ++ "event_type" ++ dq ++ ", " ++ dq ++ "source_device" ++ dq
  ++ ", " ++ dq ++ "criticality_level" ++ dq ++ "])"
  ++ nl ++ "    ".

(** The dict appended to [result] for one record; its entries are evaluated
    in the order written. *)
Definition alert_row (record : FluxRecord) : result pyval :=
  time <- get_time record ;;
  event_id <- getitem record "event_id" ;;
  source_device <- getitem record "source_device" ;;
  event_type <- getitem record "event_type" ;;
  criticality_level <- getitem record "criticality_level" ;;
  criticality <- py_int criticality_level ;;
  ret (PDict [("time", PStr (isoformat time));
              ("event_id", event_id);
              ("source_device", source_device);
              ("event_type", event_type);
              ("criticality", PInt criticality)]).

(** [for table in tables: for record in table.records: result.append(...)] *)
Definition alert_rows (tables : list FluxTable) : result (list pyval) :=
  for_each tables
    (fun result table =>
       for_each (records table)
         (fun result record =>
            row <- alert_row record ;;
            ret (result ++ [row]))
         result)
    [].

(** The column [name] of [pd.DataFrame(rows)]. *)
Definition column (name : string) (rows : list pyval) : list pyval :=
  map (fun row =>
         match row with
         | PDict kvs =>
             match assoc name kvs with
             | Some v => v
             | None => PNone
             end
         | _ => PNone
         end)
      rows.

(** [df.groupby(key).size()] on the key column. *)
Definition groupby_size (keys : list pyval) : list (pyval * Z) :=
  match all_str keys with
  | Some names => map (fun kn => (PStr (fst kn), snd kn)) (count_sorted names)
  | None => groupby_size_mixed keys
  end.

(** [.reset_index(name="critical_event_count").to_dict(orient="records")] *)
Definition summary_records (counts : list (pyval * Z)) : list pyval :=
  map (fun kn =>
         PDict [("source_device", fst kn); ("critical_event_count", PInt (snd kn))])
      counts.

Definition handle_alerts_critical (qapi : query_api) (params : pyval) : M pyval :=
  since_minutes <- lift (v <- py_get params "since_minutes" (PInt 15) ;; py_int v) ;;
  min_crit <- lift (v <- py_get params "min_criticality" (PInt 8) ;; py_int v) ;;
  let start_range := ("-" ++ str_of_int since_minutes ++ "m")%string in
  let flux := alerts_flux start_range min_crit in
  tables <- query qapi flux INFLUXDB_ORG ;;
  result <- lift (alert_rows tables) ;;
  let summary_data :=
    match result with
    | [] => []
    | _ :: _ => summary_records (groupby_size (column "source_device" result))
    end in
  ret (PDict [("status", PStr "success");
              ("data", PList result);
              ("summary", PList summary_data)]).

(** *** [handle_device_health] *)

Definition health_flux (device : pyval) : string :=
  nl ++ "    from(bucket: " ++ dq ++ INFLUXDB_BUCKET ++ dq ++ ")"
  ++ nl ++ "      |> range(start: -5m)"
  ++ nl ++ "      |> filter(fn: (r) => r._measurement == " ++ dq ++ "device_metrics" ++ dq ++ ")"
  ++ nl ++ "      |> filter(fn: (r) => r.source_device == " ++ dq ++ py_str device ++ dq ++ ")"
  ++ nl ++ "      |> last()"
  ++ nl ++ "    ".

(** The [if value > 90 ... elif value > 70 ... else] ladder. *)
Definition classify (value : num) : string :=
  if num_gt value (NInt 90) then "critical"
  else if num_gt value (NInt 70) then "warning"
  else "ok".

(** The body of the inner loop: [health_status] after one more record. *)
Definition health_step (health_status : string) (record : FluxRecord)
  : result string :=
  field <- get_field record ;;
  if py_eq_str field "value" then
    value <- get_value record ;;
    match as_num value with
    | Some n => ret (classify n)
    | None => ret health_status
    end
  else ret health_status.

Definition handle_device_health (qapi : query_api) (params : pyval) : M pyval :=
  device <- lift (py_get params "source_device" PNone) ;;
  if negb (truthy device) then ret (error_response "source_device is required")
  else
    let flux := health_flux device in
    tables <- query qapi flux INFLUXDB_ORG ;;
    health_status <-
      lift (for_each tables
              (fun health_status table =>
                 for_each (records table) health_step health_status)
              "unknown") ;;
    ret (success_response
           (PDict [("device", device); ("health", PStr health_status)])).

(** *** [handle_anomaly_temperature] *)

(** The literal [1.3] *)
Definition default_threshold : spec_float := nearest_ratio false 13 10.

Definition anomaly_flux (device : pyval) (window : Z) : string :=
  nl ++ "    from(bucket: " ++ dq ++ INFLUXDB_BUCKET ++ dq ++ ")"
  ++ nl ++ "      |> range(start: -" ++ str_of_int window ++ "m)"
  ++ nl ++ "      |> filter(fn: (r) => r._measurement == " ++ dq ++ "device_metrics" ++ dq ++ ")"
  ++ nl ++ "      |> filter(fn: (r) => r.source_device == " ++ dq ++ py_str device ++ dq
  ++ " and r.metric_type == " ++ dq ++ "temperature" ++ dq ++ ")"
  ++ nl ++ "      |> sort(columns: [" ++ dq ++ "_time" ++ dq ++ "], desc: false)"
  ++ nl ++ "    ".

(** One record of the comprehension: the condition is read first, the value
    only when the condition holds. *)
Definition value_step (values : list pyval) (record : FluxRecord)
  : result (list pyval) :=
  field <- get_field record ;;
  if py_eq_str field "value" then
    value <- get_value record ;;
    ret (values ++ [value])
  else ret values.

(** [[record.get_value() for table in tables for record in table.records
      if record.get_field() == "value"]] *)
Definition value_column (tables : list FluxTable) : result (list pyval) :=
  for_each tables
    (fun values table => for_each (records table) value_step values)
    [].

Definition handle_anomaly_temperature (qapi : query_api) (params : pyval) : M pyval :=
  device <- lift (py_get params "source_device" PNone) ;;
  threshold <- lift (v <- py_get params "threshold" (PFloat default_threshold) ;; py_float v) ;;
  window <- lift (v <- py_get params "window_minutes" (PInt 20) ;; py_int v) ;;
  let flux := anomaly_flux device window in
  tables <- query qapi flux INFLUXDB_ORG ;;
  values <- lift (value_column tables) ;;
  if Z.of_nat (List.length values) <? 2 then ret (success_response (PStr "not enough data"))
  else
    let initial := hd PNone values in
    let latest := last values PNone in
    ratio <- lift (if py_ne_int initial 0
                   then q <- py_truediv latest initial ;; ret (NFloat q)
                   else ret (NInt 0)) ;;
    let anomaly := num_ge ratio (NFloat threshold) in
    ret (success_response
           (PDict [("device", device);
                   ("initial_temp", initial);
                   ("latest_temp", latest);
                   ("ratio", num_val (round2 ratio));
                   ("anomaly", PBool anomaly)])).

(** *** [request_handler] *)

(** The body of the [try] block: decode, read the two keys, dispatch. *)
Definition dispatch (qapi : query_api) (data : string) : M pyval :=
  request <- lift (json_loads data) ;;
  query_type <- lift (py_get request "query_type" PNone) ;;
  params <- lift (py_get request "params" (PDict [])) ;;
  if py_eq_str query_type "alerts_critical" then handle_alerts_critical qapi params
  else if py_eq_str query_type "device_health" then handle_device_health qapi params
  else if py_eq_str query_type "anomaly_temperature" then
         handle_anomaly_temperature qapi params
  else ret (error_response ("Unknown query_type: " ++ py_str query_type)).

Definition request_handler (qapi : query_api) (data : string) : M unit :=
  response <-
    try_except (dispatch qapi data)
      (fun e =>
         emit (Logged "Error handling request") ;;;
         ret (error_response (exn_str e))) ;;
  emit (Responded (json_dumps response)).

End Handlers.

Arguments alerts_flux : simpl never.
Arguments health_flux : simpl never.
Arguments anomaly_flux : simpl never.
Arguments nearest_ratio : simpl never.
Arguments float_round2 : simpl never.
Arguments str_of_int : simpl never.

(** ** Reference descriptions of what the pipelines read and answer *)

(** The rows of a result in the order the loops visit them: tables in
    order, and the records of a table in order. *)
Definition all_records (tables : list FluxTable) : list FluxRecord :=
  flat_map records tables.

(** A record the two metric pipelines can read: it has a [_field] column,
    and a [_value] column when its field is "value". *)
Definition readable (record : FluxRecord) : bool :=
  match assoc "_field" (flux_values record) with
  | Some field =>
      if py_eq_str field "value"
      then match assoc "_value" (flux_values record) with
           | Some _ => true
           | None => false
           end
      else true
  | None => false
  end.

(** The value a record contributes: the [_value] of a record of field
    "value". *)
Definition field_value (record : FluxRecord) : option pyval :=
  match assoc "_field" (flux_values record) with
  | Some field =>
      if py_eq_str field "value" then assoc "_value" (flux_values record) else None
  | None => None
  end.

Definition keep_some {A} (o : option A) : list A :=
  match o with
  | Some a => [a]
  | None => []
  end.

Definition field_values (rs : list FluxRecord) : list pyval :=
  flat_map (fun r => keep_some (field_value r)) rs.

(** The numeric samples among the values. *)
Definition samples (rs : list FluxRecord) : list num :=
  flat_map (fun v => keep_some (as_num v)) (field_values rs).

Definition last_opt {A} (l : list A) : option A :=
  match rev l with
  | [] => None
  | a :: _ => Some a
  end.

(** The health answered for the samples seen: the class of the last one. *)
Definition health_of (ns : list num) : string :=
  match last_opt ns with
  | Some n => classify n
  | None => "unknown"
  end.

(** The rational a finite number is. *)
Definition num_Q (n : num) : option Q :=
  match denote n with
  | XFin m e =>
      Some (if 0 <=? e then inject_Z (m * 2 ^ e) else Qmake m (Z.to_pos (2 ^ (- e))))
  | _ => None
  end.

(** A record whose value is present and is neither an int nor a float. *)
Definition non_numeric_sample (record : FluxRecord) : bool :=
  match field_value record with
  | Some v => negb (isinstance_int_float v)
  | None => false
  end.

Definition without_non_numeric (table : FluxTable) : FluxTable :=
  {| records := filter (fun r => negb (non_numeric_sample r)) (records table) |}.

(** An event of the critical-alerts answer. *)
Record event_record : Type :=
  { ev_time : string;
    ev_id : pyval;
    ev_device : string;
    ev_type : pyval;
    ev_criticality : Z }.

Definition event_dict (e : event_record) : pyval :=
  PDict [("time", PStr (ev_time e));
         ("event_id", ev_id e);
         ("source_device", PStr (ev_device e));
         ("event_type", ev_type e);
         ("criticality", PInt (ev_criticality e))].

Definition summary_entry (kn : string * Z) : pyval :=
  PDict [("source_device", PStr (fst kn)); ("critical_event_count", PInt (snd kn))].

(** The number of rows counted for [d]. *)
Fixpoint counted (d : string) (counts : list (string * Z)) : Z :=
  match counts with
  | [] => 0
  | (k, n) :: rest => if String.eqb d k then n else counted d rest
  end.

(** Keys strictly increasing. *)
Definition increasing (counts : list (string * Z)) : Prop :=
  StronglySorted (fun a b => String.compare (fst a) (fst b) = Lt) counts.

(** The [status] of a response envelope. *)
Definition status_of (response : pyval) : option pyval :=
  match response with
  | PDict kvs => assoc "status" kvs
  | _ => None
  end.


Section Reference.

Context {rt : Runtime}.

(** A record of the store reads as the event [e]: the columns are there,
    the device is a tag (a string), and [int()] accepts the criticality. *)
Definition reads_as (record : FluxRecord) (e : event_record) : Prop :=
  flux_time record = Some {| isoformat := ev_time e |}
  /\ assoc "event_id" (flux_values record) = Some (ev_id e)
  /\ assoc "source_device" (flux_values record) = Some (PStr (ev_device e))
  /\ assoc "event_type" (flux_values record) = Some (ev_type e)
  /\ exists level,
      assoc "criticality_level" (flux_values record) = Some level
      /\ py_int level = Ok (ev_criticality e).

(** A record with every column of the critical-alerts projection, whose
    criticality [int()] rejects. *)
Definition bad_criticality (record : FluxRecord) : Prop :=
  exists time event_id source_device event_type level e,
    flux_time record = Some time
    /\ assoc "event_id" (flux_values record) = Some event_id
    /\ assoc "source_device" (flux_values record) = Some source_device
    /\ assoc "event_type" (flux_values record) = Some event_type
    /\ assoc "criticality_level" (flux_values record) = Some level
    /\ py_int level = Raise e.

(** The response of a request that is answered: what the [try] block built,
    or the error envelope of the exception the [except] clause caught. *)
Definition response_of (qapi : query_api) (data : string) (t : trace) : pyval :=
  match fst (dispatch qapi data t) with
  | Ok response => response
  | Raise e => error_response (exn_str e)
  end.

(** What a handler does before it answers: nothing, or one query whose
    result alone decides the answer. *)
Inductive plan : Type :=
| Answer (response : pyval)
| Ask (flux : string) (derive : list FluxTable -> result pyval).

Definition run_plan (qapi : query_api) (p : result plan) : M pyval :=
  fun t =>
    match p with
    | Raise e => (Raise e, t)
    | Ok (Answer response) => (Ok response, t)
    | Ok (Ask flux derive) =>
        (tables <- qapi flux INFLUXDB_ORG ;; derive tables,
         t ++ [Queried flux INFLUXDB_ORG])
    end.

(** A plan whose own steps raise [Exception]s only: before the query, and
    while deriving the answer from any result of it. *)
Definition raises_Exception_only (p : result plan) : Prop :=
  match p with
  | Raise e => isinstance_Exception e = true
  | Ok (Answer _) => True
  | Ok (Ask _ derive) =>
      forall tables e, derive tables = Raise e -> isinstance_Exception e = true
  end.

(** The response of the temperature-anomaly pipeline on two or more values. *)
Definition anomaly_answer (device initial latest : pyval) (ratio : num) (anomaly : bool)
  : pyval :=
  success_response
    (PDict [("device", device);
            ("initial_temp", initial);
            ("latest_temp", latest);
            ("ratio", num_val ratio);
            ("anomaly", PBool anomaly)]).

End Reference.

(** ** A sample deployment, to run the handlers on concrete messages *)

Definition quoted (s : string) : string := dq ++ s ++ dq.

(** Compact JSON text for the values of the samples: strings are written
    without escapes, floats as sign, mantissa and binary exponent. *)
Definition render_float (f : spec_float) : string :=
  match f with
  | S754_zero s => if s then "-0.0" else "0.0"
  | S754_infinity s => if s then "-Infinity" else "Infinity"
  | S754_nan => "NaN"
  | S754_finite s m e =>
      (if s then "-" else "") ++ str_of_int (Zpos m) ++ "p" ++ str_of_int e
  end.

Fixpoint render (v : pyval) : string :=
  match v with
  | PNone => "null"
  | PBool true => "true"
  | PBool false => "false"
  | PInt z => str_of_int z
  | PFloat f => render_float f
  | PStr s => quoted s
  | PList items =>
      "[" ++ (fix go (l : list pyval) : string :=
                match l with
                | [] => ""
                | x :: l' =>
                    (render x ++ match l' with [] => "" | _ :: _ => ", " ++ go l' end)%string
                end) items ++ "]"
  | PDict items =>
      "{" ++ (fix go (l : list (string * pyval)) : string :=
                match l with
                | [] => ""
                | (k, x) :: l' =>
                    (quoted k ++ ": " ++ render x
                     ++ match l' with [] => "" | _ :: _ => ", " ++ go l' end)%string
                end) items ++ "}"
  end.

Definition msg_unknown : string :=
  "{" ++ quoted "query_type" ++ ": " ++ quoted "uptime" ++ "}".

Definition msg_alerts : string :=
  "{" ++ quoted "query_type" ++ ": " ++ quoted "alerts_critical" ++ "}".

Definition msg_health : string :=
  "{" ++ quoted "query_type" ++ ": " ++ quoted "device_health" ++ ", "
  ++ quoted "params" ++ ": {" ++ quoted "source_device" ++ ": " ++ quoted "pump-7" ++ "}}".

Definition msg_anomaly_no_device : string :=
  "{" ++ quoted "query_type" ++ ": " ++ quoted "anomaly_temperature" ++ ", "
  ++ quoted "params" ++ ": {}}".

(** The sample message bodies and the requests they decode to. *)
Definition sample_requests : list (string * pyval) :=
  [(msg_unknown, PDict [("query_type", PStr "uptime")]);
   (msg_alerts, PDict [("query_type", PStr "alerts_critical")]);
   (msg_health,
    PDict [("query_type", PStr "device_health");
           ("params", PDict [("source_device", PStr "pump-7")])]);
   (msg_anomaly_no_device,
    PDict [("query_type", PStr "anomaly_temperature"); ("params", PDict [])])].

Definition sample_loads (data : string) : result pyval :=
  match assoc data sample_requests with
  | Some request => Ok request
  | None =>
      Raise (Exn (OtherError "JSONDecodeError")
               "Expecting value: line 1 column 1 (char 0)")
  end.

Definition sample_repr (v : pyval) : string :=
  match v with
  | PStr s => sq ++ s ++ sq
  | _ => render v
  end.

(** Decimal integer literals with an optional minus sign; Python reads
    more (a plus sign, blanks around, underscores between digits). *)
Definition sample_int_of_str (s : string) : option Z :=
  option_map Z.of_int (NilZero.int_of_string s).

(** The sample deployment: the decoder knows the sample messages and takes
    any other body as malformed JSON, floats are read from integer literals
    only, and no sample groups by a key that is not a string. *)
Definition sample_runtime : Runtime :=
  {| json_loads := sample_loads;
     json_dumps := render;
     py_repr := sample_repr;
     int_of_str := sample_int_of_str;
     float_of_str :=
       fun s =>
         match sample_int_of_str s with
         | Some z => Some (binary_normalize prec emax z 0 false)
         | None => None
         end;
     groupby_size_mixed := fun _ => [];
     INFLUXDB_BUCKET := "telemetry";
     INFLUXDB_ORG := "plant";
     json_loads_raises :=
       ltac:(intros data e; unfold sample_loads; cbv beta;
             destruct (assoc data sample_requests);
             [discriminate | intros H; injection H as <-; reflexivity]) |}.

(** The float an int literal with a trailing [.0] denotes. *)
Definition float_lit (z : Z) : spec_float := binary_normalize prec emax z 0 false.

(** A metric record of field "value". *)
Definition metric (time : string) (v : pyval) : FluxRecord :=
  {| flux_time := Some {| isoformat := time |};
     flux_values := [("_field", PStr "value"); ("_value", v);
                     ("_measurement", PStr "device_metrics")] |}.

(** An event record of the critical-alerts query. *)
Definition event_row (time id device kind : string) (level : pyval) : FluxRecord :=
  {| flux_time := Some {| isoformat := time |};
     flux_values := [("event_id", PStr id); ("event_type", PStr kind);
                     ("source_device", PStr device); ("criticality_level", level)] |}.

(** A store that answers every query with the same tables. *)
Definition store_of (tables : list FluxTable) : query_api := fun _ _ => Ok tables.

(** A store that is down. *)
Definition store_down : query_api :=
  fun _ _ => Raise (Exn (OtherError "ApiException") "(503) Service Unavailable").

(** Three readings of a device: the middle one is not a number. *)
Definition sample_health_tables : list FluxTable :=
  [ {| records := [metric "2024-05-01T10:00:00+00:00" (PInt 50);
                   metric "2024-05-01T10:01:00+00:00" (PStr "n/a")] |};
    {| records := [metric "2024-05-01T10:02:00+00:00" (PInt 95)] |} ].

Definition sample_health_params : pyval := PDict [("source_device", PStr "pump-7")].

(** Two events of device A and one of device B. *)
Definition sample_alert_tables : list FluxTable :=
  [ {| records := [event_row "2024-05-01T10:02:00+00:00" "e3" "A" "overheat" (PInt 9);
                   event_row "2024-05-01T10:01:00+00:00" "e2" "A" "overheat" (PInt 10)] |};
    {| records := [event_row "2024-05-01T10:00:00+00:00" "e1" "B" "vibration" (PInt 8)] |} ].

Definition sample_events : list event_record :=
  [ {| ev_time := "2024-05-01T10:02:00+00:00"; ev_id := PStr "e3"; ev_device := "A";
       ev_type := PStr "overheat"; ev_criticality := 9 |};
    {| ev_time := "2024-05-01T10:01:00+00:00"; ev_id := PStr "e2"; ev_device := "A";
       ev_type := PStr "overheat"; ev_criticality := 10 |};
    {| ev_time := "2024-05-01T10:00:00+00:00"; ev_id := PStr "e1"; ev_device := "B";
       ev_type := PStr "vibration"; ev_criticality := 8 |} ].

(** The same events, the second with a criticality that is not a number. *)
Definition sample_bad_alert_tables : list FluxTable :=
  [ {| records := [event_row "2024-05-01T10:02:00+00:00" "e3" "A" "overheat" (PInt 9);
                   event_row "2024-05-01T10:01:00+00:00" "e2" "A" "overheat" (PStr "high")] |};
    {| records := [event_row "2024-05-01T10:00:00+00:00" "e1" "B" "vibration" (PInt 8)] |} ].

(** A temperature series: one table of readings, oldest first. *)
Definition series (readings : list pyval) : list FluxTable :=
  [ {| records := map (metric "2024-05-01T10:00:00+00:00") readings |} ].

(** ** More of the sample deployment *)

(** A store whose query is interrupted from the keyboard. *)
Definition store_interrupted : query_api :=
  fun _ _ => Raise (Exn (OtherError "KeyboardInterrupt") "").


(** How severe a health is: "ok" and "unknown" below "warning" below
    "critical". *)
Definition severity (health : string) : nat :=
  if String.eqb health "critical" then 2
  else if String.eqb health "warning" then 1
  else 0.

(** The number of rows a summary accounts for. *)
Definition total (counts : list (string * Z)) : Z :=
  fold_right (fun kn acc => snd kn + acc) 0 counts.

(** The sample deployment with another table of message bodies. *)
Definition runtime_decoding (requests : list (string * pyval)) : Runtime :=
  {| json_loads :=
       fun data =>
         match assoc data requests with
         | Some request => Ok request
         | None =>
             Raise (Exn (OtherError "JSONDecodeError")
                      "Expecting value: line 1 column 1 (char 0)")
         end;
     json_dumps := render;
     py_repr := sample_repr;
     int_of_str := sample_int_of_str;
     float_of_str := fun _ => None;
     groupby_size_mixed := fun _ => [];
     INFLUXDB_BUCKET := "telemetry";
     INFLUXDB_ORG := "plant";
     json_loads_raises :=
       ltac:(intros data e; cbv beta; destruct (assoc data requests);
             [discriminate | intros H; injection H as <-; reflexivity]) |}.

(** Two more message bodies: a JSON list, and a device-health request whose
    [params] is [null]. *)
Definition msg_list : string := "[1, 2]".

Definition msg_null_params : string :=
  "{" ++ quoted "query_type" ++ ": " ++ quoted "device_health" ++ ", "
  ++ quoted "params" ++ ": null}".

Definition more_requests : list (string * pyval) :=
  [(msg_list, PList [PInt 1; PInt 2]);
   (msg_null_params, PDict [("query_type", PStr "device_health"); ("params", PNone)])].

(** Requests whose [query_type] is a number, a boolean, or missing. *)
Definition msg_number : string := "{" ++ quoted "query_type" ++ ": 5}".

Definition msg_flag : string := "{" ++ quoted "query_type" ++ ": true}".

Definition msg_empty : string := "{}".

Definition untyped_requests : list (string * pyval) :=
  [(msg_number, PDict [("query_type", PInt 5)]);
   (msg_flag, PDict [("query_type", PBool true)]);
   (msg_empty, PDict [])].

(** A store that knows one query only and is down for every other. *)
Definition store_answering (flux : string) (tables : list FluxTable) : query_api :=
  fun asked _ =>
    if String.eqb asked flux then Ok tables
    else Raise (Exn (OtherError "ApiException") "(503) Service Unavailable").

(** ** Start-up and shutdown: the configuration and [run] *)

Module Startup.

(** What [run] does to the world around it, in order. *)
Inductive call : Type :=
| LogError (text : string)
| LogCritical (text : string)
| LogInfo (text : string)
| OpenClient (url : string) (token org : option string)
| Ping
| Connect (url : string)
| Subscribe (subject : string)
| Sleep (seconds : Z)
| CloseBus
| CloseClient.

(** The world around [run]: the environment of the process, what the
    store and the bus answer, and when and by what the endless loop is
    interrupted. *)
Record World : Type :=
  { environ : list (string * string);
    (** [influx_client.ping()] *)
    ping : bool;
    (** [nats.connect(NATS_URL)] *)
    connect : result unit;
    (** [nc.subscribe(...)] *)
    subscribe : result unit;
    (** the sleeps that complete before one is interrupted *)
    sleeps : nat;
    (** what the interrupted sleep raises *)
    interrupt : exn;
    (** [nc.close()] *)
    close_bus : result unit;
    (** [influx_client.close()] *)
    close_client : result unit }.

(** [os.getenv(name)] *)
Fixpoint getenv (environ : list (string * string)) (name : string) : option string :=
  match environ with
  | [] => None
  | (k, v) :: rest => if String.eqb k name then Some v else getenv rest name
  end.

(** [os.getenv(name, default)] *)
Definition getenv_or (environ : list (string * string)) (name default : string) : string :=
  match getenv environ name with
  | Some v => v
  | None => default
  end.

(** The module-level configuration. *)
Record Config : Type :=
  { NATS_URL : string;
    NATS_SUBJECT_REQUEST : string;
    INFLUXDB_HOST : string;
    INFLUXDB_TOKEN : option string;
    INFLUXDB_ORG : option string;
    INFLUXDB_BUCKET : option string }.

Definition config (environ : list (string * string)) : Config :=
  {| NATS_URL := getenv_or environ "NATS_URL" "nats://nats:4222";
     NATS_SUBJECT_REQUEST := getenv_or environ "NATS_SUBJECT_REQUEST" "reader.query";
     INFLUXDB_HOST := getenv_or environ "INFLUXDB_HOST" "http://influxdb:8086";
     INFLUXDB_TOKEN := getenv environ "INFLUXDB_TOKEN";
     INFLUXDB_ORG := getenv environ "INFLUXDB_ORG";
     INFLUXDB_BUCKET := getenv environ "INFLUXDB_BUCKET" |}.

(** [bool(v)] of a configuration value: unset and empty are false. *)
Definition present (v : option string) : bool :=
  match v with
  | Some s => negb (String.eqb s "")
  | None => false
  end.

(** A computation of [run]: it may raise, and it extends the calls made. *)
Definition P (A : Type) : Type := list call -> result A * list call.

#[export] Instance Monad_P : Monad P :=
  { ret := fun A a h => (Ok a, h);
    bind := fun A B c k h =>
              match c h with
              | (Ok a, h') => k a h'
              | (Raise e, h') => (Raise e, h')
              end }.

(** A call and what it answers. *)
Definition calls {A} (c : call) (answer : result A) : P A :=
  fun h => (answer, h ++ [c]).

(** [exit(code)] raises [SystemExit]. *)
Definition SystemExit (code : Z) : exn := Exn (OtherError "SystemExit") (str_of_int code).

Definition exit (code : Z) : P unit := fun h => (Raise (SystemExit code), h).

(** [try: body finally: final]: [final] runs however [body] ends, and what
    it raises takes the place of what [body] raised. *)
Definition try_finally {A} (body : P A) (final : P unit) : P A :=
  fun h =>
    match body h with
    | (r, h') =>
        match final h' with
        | (Ok _, h'') => (r, h'')
        | (Raise e, h'') => (Raise e, h'')
        end
    end.

(** [while True: await asyncio.sleep(1)]: the loop ends only when a sleep
    is interrupted. *)
Fixpoint forever (w : World) (n : nat) : P unit :=
  match n with
  | O => calls (Sleep 1) (Raise (interrupt w))
  | S n' => calls (Sleep 1) (Ok tt) ;;; forever w n'
  end.

Definition run (w : World) : P unit :=
  let cfg := config (environ w) in
  (if negb (forallb present [INFLUXDB_TOKEN cfg; INFLUXDB_ORG cfg; INFLUXDB_BUCKET cfg])
   then calls (LogError "Missing InfluxDB credentials.") (Ok tt) ;;; exit 1
   else ret tt) ;;;
  calls (OpenClient (INFLUXDB_HOST cfg) (INFLUXDB_TOKEN cfg) (INFLUXDB_ORG cfg)) (Ok tt) ;;;
  alive <- calls Ping (Ok (ping w)) ;;
  (if negb alive
   then calls (LogCritical "InfluxDB ping failed.") (Ok tt) ;;; exit 1
   else ret tt) ;;;
  calls (Connect (NATS_URL cfg)) (connect w) ;;;
  calls (Subscribe (NATS_SUBJECT_REQUEST cfg)) (subscribe w) ;;;
  calls (LogInfo ("Subscribed to NATS subject '" ++ NATS_SUBJECT_REQUEST cfg ++ "'"))
    (Ok tt) ;;;
  try_finally (forever w (sleeps w))
    (calls CloseBus (close_bus w) ;;; calls CloseClient (close_client w)).

(** The three credentials are set and not empty. *)
Definition credentials (w : World) : bool :=
  forallb (fun name => present (getenv (environ w) name))
    ["INFLUXDB_TOKEN"; "INFLUXDB_ORG"; "INFLUXDB_BUCKET"].

Definition is_ok {A} (r : result A) : bool :=
  match r with
  | Ok _ => true
  | Raise _ => false
  end.

(** A world in which [run] reaches its loop. *)
Definition starts (w : World) : bool :=
  credentials w && ping w && is_ok (connect w) && is_ok (subscribe w).

(** A deployment with its three credentials, a store and a bus that
    answer, interrupted during the third sleep. *)
Definition sample_world : World :=
  {| environ := [("INFLUXDB_TOKEN", "s3cr3t"); ("INFLUXDB_ORG", "plant");
                 ("INFLUXDB_BUCKET", "telemetry"); ("NATS_URL", "nats://bus:4222")];
     ping := true;
     connect := Ok tt;
     subscribe := Ok tt;
     sleeps := 2;
     interrupt := Exn (OtherError "CancelledError") "";
     close_bus := Ok tt;
     close_client := Ok tt |}.

(** The same deployment with an empty bucket name. *)
Definition sample_world_without_bucket : World :=
  {| environ := [("INFLUXDB_TOKEN", "s3cr3t"); ("INFLUXDB_ORG", "plant");
                 ("INFLUXDB_BUCKET", "")];
     ping := true;
     connect := Ok tt;
     subscribe := Ok tt;
     sleeps := 2;
     interrupt := Exn (OtherError "CancelledError") "";
     close_bus := Ok tt;
     close_client := Ok tt |}.

(** The same deployment with a store that does not answer the ping. *)
Definition sample_world_dead_store : World :=
  {| environ := environ sample_world;
     ping := false;
     connect := Ok tt;
     subscribe := Ok tt;
     sleeps := 2;
     interrupt := Exn (OtherError "CancelledError") "";
     close_bus := Ok tt;
     close_client := Ok tt |}.

End Startup.

(** * Properties *)

(** ** The monads and the loops *)

Lemma bind_M_eq {A B} (c : M A) (k : A -> M B) (t : trace) :
  bind c k t =
  match c t with
  | (Ok a, t') => k a t'
  | (Raise e, t') => (Raise e, t')
  end.
Proof. reflexivity. Qed.

Lemma bind_lift_Ok {A B} (r : result A) (a : A) (k : A -> M B) (t : trace) :
  r = Ok a -> bind (lift r) k t = k a t.
Proof. intros ->. reflexivity. Qed.

Lemma bind_lift_Raise {A B} (r : result A) (e : exn) (k : A -> M B) (t : trace) :
  r = Raise e -> bind (lift r) k t = (Raise e, t).
Proof. intros ->. reflexivity. Qed.

Lemma bind_query {B} (qapi : query_api) (flux org : string)
  (k : list FluxTable -> M B) (t : trace) :
  bind (query qapi flux org) k t =
  match qapi flux org with
  | Ok tables => k tables (t ++ [Queried flux org])
  | Raise e => (Raise e, t ++ [Queried flux org])
  end.
Proof. rewrite bind_M_eq. unfold query. destruct (qapi flux org); reflexivity. Qed.

Lemma for_each_app {A S} (xs ys : list A) (body : S -> A -> result S) (s : S) :
  for_each (xs ++ ys) body s =
  match for_each xs body s with
  | Ok s' => for_each ys body s'
  | Raise e => Raise e
  end.
Proof.
  revert s. induction xs as [|x xs IH]; intros s; simpl.
  - reflexivity.
  - destruct (body s x) as [s'|e]; [apply IH | reflexivity].
Qed.

(** The two nested loops visit the records of [all_records] in order. *)
Lemma for_each_tables {S} (tables : list FluxTable)
  (body : S -> FluxRecord -> result S) (s : S) :
  for_each tables (fun s table => for_each (records table) body s) s =
  for_each (all_records tables) body s.
Proof.
  revert s. induction tables as [|table tables IH]; intros s; simpl.
  - reflexivity.
  - rewrite for_each_app.
    destruct (for_each (records table) body s) as [s'|e]; [apply IH | reflexivity].
Qed.

(** A loop leaves at the first record its body raises on, whatever the
    state it has reached by then. *)
Lemma for_each_raises {A S} (xs : list A) (body : S -> A -> result S) (s : S) :
  Exists (fun x => forall s', exists e, body s' x = Raise e) xs ->
  exists e, for_each xs body s = Raise e.
Proof.
  intros H. revert s. induction H as [x xs Hx | x xs _ IH]; intros s; simpl.
  - destruct (Hx s) as [e ->]. now exists e.
  - destruct (body s x) as [s'|e]; [apply IH | now exists e].
Qed.

(** What a loop raises, its body raised. *)
Lemma for_each_raise {A S} (P : exn -> Prop) (xs : list A)
  (body : S -> A -> result S) (s : S) (e : exn) :
  (forall s x e, body s x = Raise e -> P e) ->
  for_each xs body s = Raise e -> P e.
Proof.
  intros Hbody. revert s. induction xs as [|x xs IH]; intros s; simpl; [discriminate|].
  destruct (body s x) as [s'|e'] eqn:E; [apply IH|].
  intros Heq. injection Heq as <-. eapply Hbody. exact E.
Qed.

(** What a sequence of two steps raises, one of the steps raised. *)
Lemma bind_raise {A B} (P : exn -> Prop) (c : result A) (k : A -> result B) (e : exn) :
  (forall e, c = Raise e -> P e) ->
  (forall a e, k a = Raise e -> P e) ->
  bind c k = Raise e -> P e.
Proof.
  intros Hc Hk. destruct c as [a|e']; simpl.
  - apply Hk.
  - intros H. injection H as <-. now apply Hc.
Qed.

(** ** What the pipelines raise on their own

    The conversions, the lookups, the loops over the rows and the division
    raise [Exception]s only ([AttributeError], [KeyError], [TypeError],
    [ValueError], [OverflowError], [ZeroDivisionError]). *)

Ltac raised := let H := fresh in intros H; injection H as <-; reflexivity.

Lemma float_of_int_Exception (z : Z) (e : exn) :
  float_of_int z = Raise e -> isinstance_Exception e = true.
Proof.
  unfold float_of_int.
  destruct (binary_normalize prec emax z 0 false); try discriminate. raised.
Qed.

Lemma int_of_float_Exception (f : spec_float) (e : exn) :
  int_of_float f = Raise e -> isinstance_Exception e = true.
Proof. destruct f; simpl; try discriminate; raised. Qed.

Lemma py_truediv_Exception (a b : pyval) (e : exn) :
  py_truediv a b = Raise e -> isinstance_Exception e = true.
Proof.
  assert (Hfloat : forall x y, float_truediv x y = Raise e -> isinstance_Exception e = true).
  { intros x y. unfold float_truediv. destruct (is_zero y); [raised | discriminate]. }
  unfold py_truediv.
  destruct (as_num a) as [[x|fx]|]; destruct (as_num b) as [[y|fy]|]; try raised.
  - unfold int_truediv. destruct (y =? 0); [raised|].
    destruct (x =? 0); [discriminate|].
    destruct (nearest_ratio _ _ _); try discriminate. raised.
  - simpl. destruct (float_of_int x) as [f|e'] eqn:Ex; simpl.
    + apply Hfloat.
    + intros H. injection H as <-. now apply (float_of_int_Exception x).
  - simpl. destruct (float_of_int y) as [f|e'] eqn:Ey; simpl.
    + apply Hfloat.
    + intros H. injection H as <-. now apply (float_of_int_Exception y).
  - simpl. apply Hfloat.
Qed.

Section Raised.

Context {rt : Runtime}.

Lemma py_get_Exception (obj : pyval) (key : string) (default : pyval) (e : exn) :
  py_get obj key default = Raise e -> isinstance_Exception e = true.
Proof. destruct obj; simpl; try discriminate; raised. Qed.

Lemma py_int_Exception (v : pyval) (e : exn) :
  py_int v = Raise e -> isinstance_Exception e = true.
Proof.
  destruct v as [| | |f|s| |]; simpl; try discriminate; try raised.
  - apply int_of_float_Exception.
  - destruct (int_of_str s); [discriminate | raised].
Qed.

Lemma py_float_Exception (v : pyval) (e : exn) :
  py_float v = Raise e -> isinstance_Exception e = true.
Proof.
  destruct v as [|b|z|f|s| |]; simpl; try discriminate; try raised;
    try apply float_of_int_Exception.
  destruct (float_of_str s); [discriminate | raised].
Qed.

(** A parameter read with its default and converted. *)
Lemma param_Exception {A} (params : pyval) (key : string) (default : pyval)
  (conv : pyval -> result A) (e : exn) :
  (forall v e, conv v = Raise e -> isinstance_Exception e = true) ->
  (v <- py_get params key default ;; conv v) = Raise e ->
  isinstance_Exception e = true.
Proof.
  intros Hconv.
  apply (bind_raise (fun e => isinstance_Exception e = true));
    [apply py_get_Exception | exact Hconv].
Qed.

Lemma getitem_Exception (record : FluxRecord) (key : string) (e : exn) :
  getitem record key = Raise e -> isinstance_Exception e = true.
Proof. unfold getitem. destruct (assoc key (flux_values record)); [discriminate | raised]. Qed.

Lemma get_time_Exception (record : FluxRecord) (e : exn) :
  get_time record = Raise e -> isinstance_Exception e = true.
Proof. unfold get_time. destruct (flux_time record); [discriminate | raised]. Qed.

Lemma alert_rows_Exception (tables : list FluxTable) (e : exn) :
  alert_rows tables = Raise e -> isinstance_Exception e = true.
Proof.
  unfold alert_rows. rewrite for_each_tables.
  apply (for_each_raise (fun e => isinstance_Exception e = true)).
  clear e. intros result record e.
  apply (bind_raise (fun e => isinstance_Exception e = true)); [|discriminate].
  clear e. intros e. unfold alert_row.
  apply (bind_raise (fun e => isinstance_Exception e = true));
    [apply get_time_Exception | intros time].
  do 4 (clear e; intros e;
        apply (bind_raise (fun e => isinstance_Exception e = true));
        [apply getitem_Exception | intros ?]).
  clear e. intros e.
  apply (bind_raise (fun e => isinstance_Exception e = true));
    [apply py_int_Exception | discriminate].
Qed.

Lemma health_loop_Exception (tables : list FluxTable) (h : string) (e : exn) :
  for_each tables
    (fun health_status table => for_each (records table) health_step health_status) h
  = Raise e ->
  isinstance_Exception e = true.
Proof.
  rewrite for_each_tables.
  apply (for_each_raise (fun e => isinstance_Exception e = true)).
  clear e h. intros h record e. unfold health_step, get_field, get_value.
  apply (bind_raise (fun e => isinstance_Exception e = true));
    [apply getitem_Exception | intros field].
  clear e. intros e. destruct (py_eq_str field "value"); [|discriminate].
  apply (bind_raise (fun e => isinstance_Exception e = true));
    [apply getitem_Exception | intros value].
  clear e. intros e. destruct (as_num value); discriminate.
Qed.

Lemma value_column_Exception (tables : list FluxTable) (e : exn) :
  value_column tables = Raise e -> isinstance_Exception e = true.
Proof.
  unfold value_column. rewrite for_each_tables.
  apply (for_each_raise (fun e => isinstance_Exception e = true)).
  clear e. intros values record e. unfold value_step, get_field, get_value.
  apply (bind_raise (fun e => isinstance_Exception e = true));
    [apply getitem_Exception | intros field].
  clear e. intros e. destruct (py_eq_str field "value"); [|discriminate].
  apply (bind_raise (fun e => isinstance_Exception e = true));
    [apply getitem_Exception | discriminate].
Qed.

End Raised.

Lemma last_opt_app {A} (l1 l2 : list A) :
  last_opt (l1 ++ l2) =
  match last_opt l2 with
  | Some a => Some a
  | None => last_opt l1
  end.
Proof.
  unfold last_opt. rewrite rev_app_distr.
  destruct (rev l2) as [|a l]; simpl; [reflexivity | reflexivity].
Qed.

(** ** The metric loops against their reference descriptions *)

Lemma getitem_assoc (record : FluxRecord) (key : string) (v : pyval) :
  assoc key (flux_values record) = Some v -> getitem record key = Ok v.
Proof. unfold getitem. now intros ->. Qed.

Lemma health_step_readable (h : string) (record : FluxRecord) :
  readable record = true ->
  health_step h record =
  Ok (match last_opt (samples [record]) with
      | Some n => classify n
      | None => h
      end).
Proof.
  unfold readable, health_step, get_field, get_value, getitem, samples, field_values,
    field_value.
  simpl. destruct (assoc "_field" (flux_values record)) as [field|]; [|discriminate].
  simpl. destruct (py_eq_str field "value").
  - destruct (assoc "_value" (flux_values record)) as [v|]; [|discriminate].
    intros _. simpl. destruct (as_num v); reflexivity.
  - reflexivity.
Qed.

Lemma health_loop (rs : list FluxRecord) (h : string) :
  forallb readable rs = true ->
  for_each rs health_step h =
  Ok (match last_opt (samples rs) with
      | Some n => classify n
      | None => h
      end).
Proof.
  revert h. induction rs as [|r rs IH]; intros h Hrs; simpl.
  - reflexivity.
  - simpl in Hrs. apply andb_true_iff in Hrs as [Hr Hrs].
    rewrite (health_step_readable h r Hr), (IH _ Hrs).
    change (samples (r :: rs)) with (samples ([r] ++ rs)).
    unfold samples at 3, field_values. rewrite !flat_map_app.
    fold (field_values [r]) (field_values rs).
    fold (samples [r]) (samples rs).
    rewrite last_opt_app. destruct (last_opt (samples rs)); reflexivity.
Qed.

Lemma value_step_readable (values : list pyval) (record : FluxRecord) :
  readable record = true ->
  value_step values record = Ok (values ++ field_values [record]).
Proof.
  unfold readable, value_step, get_field, get_value, getitem, field_values, field_value.
  simpl. destruct (assoc "_field" (flux_values record)) as [field|]; [|discriminate].
  simpl. destruct (py_eq_str field "value").
  - destruct (assoc "_value" (flux_values record)) as [v|]; [|discriminate].
    reflexivity.
  - intros _. simpl. now rewrite app_nil_r.
Qed.

Lemma value_loop (rs : list FluxRecord) (values : list pyval) :
  forallb readable rs = true ->
  for_each rs value_step values = Ok (values ++ field_values rs).
Proof.
  revert values. induction rs as [|r rs IH]; intros values Hrs; simpl.
  - now rewrite app_nil_r.
  - simpl in Hrs. apply andb_true_iff in Hrs as [Hr Hrs].
    rewrite (value_step_readable values r Hr), (IH _ Hrs), <- app_assoc.
    f_equal. f_equal. unfold field_values. simpl. now rewrite app_nil_r.
Qed.

Lemma value_column_readable (tables : list FluxTable) :
  forallb readable (all_records tables) = true ->
  value_column tables = Ok (field_values (all_records tables)).
Proof.
  intros H. unfold value_column. rewrite for_each_tables. now rewrite value_loop.
Qed.

(** ** Grouping and counting *)

Lemma ascii_compare_refl (a : ascii) : Ascii.compare a a = Eq.
Proof. unfold Ascii.compare. apply N.compare_refl. Qed.

Lemma ascii_compare_lt_trans (a b c : ascii) :
  Ascii.compare a b = Lt -> Ascii.compare b c = Lt -> Ascii.compare a c = Lt.
Proof.
  unfold Ascii.compare. rewrite !N.compare_lt_iff. apply N.lt_trans.
Qed.

Lemma string_compare_refl (s : string) : String.compare s s = Eq.
Proof.
  induction s as [|a s IH]; simpl; [reflexivity|].
  now rewrite ascii_compare_refl.
Qed.

Lemma string_compare_lt_trans (s1 s2 s3 : string) :
  String.compare s1 s2 = Lt -> String.compare s2 s3 = Lt -> String.compare s1 s3 = Lt.
Proof.
  revert s2 s3. induction s1 as [|a s1 IH]; intros [|b s2] [|c s3]; simpl;
    try discriminate; try reflexivity.
  destruct (Ascii.compare a b) eqn:Eab; try discriminate.
  - apply Ascii.compare_eq_iff in Eab. subst b.
    destruct (Ascii.compare a c); try discriminate; [apply IH | reflexivity].
  - intros _. destruct (Ascii.compare b c) eqn:Ebc; try discriminate.
    + apply Ascii.compare_eq_iff in Ebc. subst c. now rewrite Eab.
    + now rewrite (ascii_compare_lt_trans a b c Eab Ebc).
Qed.

Lemma string_compare_gt_lt (s1 s2 : string) :
  String.compare s1 s2 = Gt -> String.compare s2 s1 = Lt.
Proof.
  intros H. rewrite String.compare_antisym, H. reflexivity.
Qed.

Lemma counted_below (k : string) (counts : list (string * Z)) :
  Forall (fun kn => String.compare k (fst kn) = Lt) counts -> counted k counts = 0.
Proof.
  intros H. induction H as [|[k' n] rest Hx Hrest IH]; simpl; [reflexivity|].
  simpl in Hx. destruct (String.eqb k k') eqn:E; [|exact IH].
  apply String.eqb_eq in E. subst k'. rewrite string_compare_refl in Hx. discriminate.
Qed.

Lemma increasing_below (k k' : string) (n : Z) (rest : list (string * Z)) :
  increasing ((k', n) :: rest) -> String.compare k k' = Lt ->
  Forall (fun kn => String.compare k (fst kn) = Lt) ((k', n) :: rest).
Proof.
  unfold increasing. intros H E. inversion H as [|? ? Hrest Hall]; subst.
  constructor; [exact E|].
  eapply Forall_impl; [|exact Hall].
  intros [k'' n''] Hlt. simpl in *. eapply string_compare_lt_trans; eassumption.
Qed.

Lemma counted_bump (d k : string) (counts : list (string * Z)) :
  increasing counts ->
  counted d (bump k counts) = counted d counts + (if String.eqb d k then 1 else 0).
Proof.
  intros H. induction counts as [|[k' n] rest IH]; simpl.
  - destruct (String.eqb d k); reflexivity.
  - destruct (String.compare k k') eqn:E.
    + apply String.compare_eq_iff in E. subst k'. simpl.
      destruct (String.eqb d k); lia.
    + pose proof (counted_below k _ (increasing_below k k' n rest H E)) as Hzero.
      simpl in Hzero. simpl.
      destruct (String.eqb d k) eqn:Edk; [|lia].
      apply String.eqb_eq in Edk. subst d. lia.
    + simpl. destruct (String.eqb d k') eqn:Edk'.
      * destruct (String.eqb d k) eqn:Edk; [|lia].
        apply String.eqb_eq in Edk, Edk'. subst k k'.
        rewrite string_compare_refl in E. discriminate.
      * apply IH. unfold increasing in *. now inversion H.
Qed.

Lemma bump_Forall (P : string * Z -> Prop) (k : string) (counts : list (string * Z)) :
  (forall k' n n', P (k', n) -> P (k', n')) ->
  P (k, 1) -> Forall P counts -> Forall P (bump k counts).
Proof.
  intros Hfst Hk H. induction H as [|[k' n] rest Hx Hrest IH]; simpl.
  - now constructor.
  - destruct (String.compare k k'); repeat constructor; eauto.
Qed.

Lemma bump_increasing (k : string) (counts : list (string * Z)) :
  increasing counts -> increasing (bump k counts).
Proof.
  unfold increasing. intros H.
  induction H as [|[k' n] rest Hrest IH Hall]; simpl.
  - repeat constructor.
  - destruct (String.compare k k') eqn:E.
    + constructor; assumption.
    + constructor; [now constructor|].
      constructor; [exact E|].
      eapply Forall_impl; [|exact Hall].
      intros [k'' n''] Hlt. simpl in *. eapply string_compare_lt_trans; eassumption.
    + constructor; [exact IH|].
      apply bump_Forall; [intros; assumption | | assumption].
      simpl. now apply string_compare_gt_lt.
Qed.

Lemma bump_positive (k : string) (counts : list (string * Z)) :
  Forall (fun kn => 0 < snd kn) counts -> Forall (fun kn => 0 < snd kn) (bump k counts).
Proof.
  intros H. induction H as [|[k' n] rest Hx Hrest IH]; simpl.
  - repeat constructor.
  - simpl in Hx. destruct (String.compare k k'); repeat constructor; simpl; auto; lia.
Qed.

Lemma counted_fold (d : string) (names : list string) (acc : list (string * Z)) :
  increasing acc ->
  counted d (fold_left (fun counts k => bump k counts) names acc) =
  counted d acc + Z.of_nat (count_occ string_dec names d).
Proof.
  revert acc. induction names as [|k names IH]; intros acc Hacc; simpl.
  - lia.
  - rewrite IH by now apply bump_increasing.
    rewrite counted_bump by exact Hacc.
    destruct (string_dec k d) as [->|Hne].
    + rewrite String.eqb_refl. lia.
    + destruct (String.eqb d k) eqn:E; [|lia].
      apply String.eqb_eq in E. congruence.
Qed.

Lemma counted_count_sorted (d : string) (names : list string) :
  counted d (count_sorted names) = Z.of_nat (count_occ string_dec names d).
Proof. unfold count_sorted. rewrite counted_fold; [reflexivity | constructor]. Qed.

Lemma count_sorted_invariant (names : list string) :
  increasing (count_sorted names)
  /\ Forall (fun kn => 0 < snd kn) (count_sorted names).
Proof.
  unfold count_sorted.
  assert (H : forall acc,
             increasing acc /\ Forall (fun kn => 0 < snd kn) acc ->
             increasing (fold_left (fun counts k => bump k counts) names acc)
             /\ Forall (fun kn => 0 < snd kn)
                  (fold_left (fun counts k => bump k counts) names acc)).
  { induction names as [|k names IH]; intros acc [Hs Hp]; simpl.
    - now split.
    - apply IH. split; [now apply bump_increasing | now apply bump_positive]. }
  apply H. split; constructor.
Qed.

Lemma increasing_NoDup (counts : list (string * Z)) :
  increasing counts -> NoDup (map fst counts).
Proof.
  unfold increasing. intros H.
  induction H as [|[k n] rest Hrest IH Hall]; simpl; constructor; [|exact IH].
  intros Hin. apply in_map_iff in Hin as [[k' n'] [Hk Hin]]. simpl in Hk. subst k'.
  rewrite Forall_forall in Hall. specialize (Hall _ Hin). simpl in Hall.
  rewrite string_compare_refl in Hall. discriminate.
Qed.

Lemma counted_absent (d : string) (counts : list (string * Z)) :
  ~ In d (map fst counts) -> counted d counts = 0.
Proof.
  induction counts as [|[k n] rest IH]; simpl; [reflexivity|].
  intros H. destruct (String.eqb d k) eqn:E.
  - apply String.eqb_eq in E. subst. exfalso. apply H. now left.
  - apply IH. intros Hin. apply H. now right.
Qed.

Lemma counted_present (d : string) (n : Z) (counts : list (string * Z)) :
  NoDup (map fst counts) -> In (d, n) counts -> counted d counts = n.
Proof.
  induction counts as [|[k m] rest IH]; simpl; [contradiction|].
  intros Hnd [Heq|Hin].
  - injection Heq as -> ->. now rewrite String.eqb_refl.
  - inversion Hnd as [|? ? Hnotin Hnd']; subst.
    destruct (String.eqb d k) eqn:E.
    + apply String.eqb_eq in E. subst k. exfalso. apply Hnotin.
      apply in_map_iff. now exists (d, n).
    + now apply IH.
Qed.

(** [count_sorted] groups and counts: one entry per distinct name, holding
    the number of its occurrences. *)
Lemma count_sorted_spec (names : list string) :
  NoDup (map fst (count_sorted names))
  /\ (forall d, In d (map fst (count_sorted names)) <-> In d names)
  /\ (forall d n, In (d, n) (count_sorted names) ->
                  n = Z.of_nat (count_occ string_dec names d)).
Proof.
  destruct (count_sorted_invariant names) as [Hinc Hpos].
  pose proof (increasing_NoDup _ Hinc) as Hnd.
  assert (Hcount : forall d n, In (d, n) (count_sorted names) ->
                               n = Z.of_nat (count_occ string_dec names d)).
  { intros d n Hin. rewrite <- counted_count_sorted. symmetry.
    now apply counted_present. }
  split; [exact Hnd|]. split; [|exact Hcount].
  intros d. split.
  - intros Hin. apply in_map_iff in Hin as [[k n] [Hk Hin]]. simpl in Hk. subst k.
    rewrite Forall_forall in Hpos. pose proof (Hpos _ Hin) as Hn. simpl in Hn.
    rewrite (Hcount _ _ Hin) in Hn.
    apply (count_occ_In string_dec). lia.
  - intros Hin. apply (count_occ_In string_dec) in Hin.
    destruct (in_dec string_dec d (map fst (count_sorted names))) as [Hyes|Hno];
      [exact Hyes|].
    apply counted_absent in Hno. rewrite counted_count_sorted in Hno. lia.
Qed.

(** ** One query per request *)

Section Pipelines.

Context {rt : Runtime}.

Lemma handle_alerts_critical_plan (params : pyval) :
  exists p,
    (forall qapi t, handle_alerts_critical qapi params t = run_plan qapi p t)
    /\ raises_Exception_only p.
Proof.
  unfold handle_alerts_critical.
  destruct (v <- py_get params "since_minutes" (PInt 15) ;; py_int v)
    as [since_minutes|e] eqn:Hsince.
  - destruct (v <- py_get params "min_criticality" (PInt 8) ;; py_int v)
      as [min_crit|e] eqn:Hcrit.
    + exists (Ok (Ask (alerts_flux ("-" ++ str_of_int since_minutes ++ "m")%string min_crit)
                    (fun tables =>
                       result <- alert_rows tables ;;
                       ret (PDict [("status", PStr "success");
                                   ("data", PList result);
                                   ("summary",
                                    PList match result with
                                          | [] => []
                                          | _ :: _ =>
                                              summary_records
                                                (groupby_size (column "source_device" result))
                                          end)])))).
      split.
      * intros qapi t.
        rewrite (bind_lift_Ok _ _ _ _ eq_refl), (bind_lift_Ok _ _ _ _ eq_refl).
        rewrite bind_query. unfold run_plan.
        destruct (qapi _ INFLUXDB_ORG) as [tables|e]; [|reflexivity].
        simpl. destruct (alert_rows tables) as [result|e]; reflexivity.
      * intros tables e. cbv beta.
        apply (bind_raise (fun e => isinstance_Exception e = true));
          [apply alert_rows_Exception | discriminate].
    + exists (Raise e). split.
      * intros qapi t.
        rewrite (bind_lift_Ok _ _ _ _ eq_refl), (bind_lift_Raise _ _ _ _ eq_refl).
        reflexivity.
      * exact (param_Exception _ _ _ _ _ py_int_Exception Hcrit).
  - exists (Raise e). split.
    + intros qapi t. now rewrite (bind_lift_Raise _ _ _ _ eq_refl).
    + exact (param_Exception _ _ _ _ _ py_int_Exception Hsince).
Qed.

Lemma handle_device_health_plan (params : pyval) :
  exists p,
    (forall qapi t, handle_device_health qapi params t = run_plan qapi p t)
    /\ raises_Exception_only p.
Proof.
  unfold handle_device_health.
  destruct (py_get params "source_device" PNone) as [device|e] eqn:Hdevice.
  - destruct (truthy device) eqn:Htruthy.
    + exists (Ok (Ask (health_flux device)
                    (fun tables =>
                       health_status <-
                         for_each tables
                           (fun health_status table =>
                              for_each (records table) health_step health_status)
                           "unknown" ;;
                       ret (success_response
                              (PDict [("device", device);
                                      ("health", PStr health_status)]))))).
      split.
      * intros qapi t. rewrite (bind_lift_Ok _ _ _ _ eq_refl), Htruthy.
        change (negb true) with false. cbv iota.
        rewrite bind_query. unfold run_plan.
        destruct (qapi _ INFLUXDB_ORG) as [tables|e]; [|reflexivity].
        simpl. match goal with |- context [for_each tables ?b ?s] =>
                                 destruct (for_each tables b s) end; reflexivity.
      * intros tables e. cbv beta.
        apply (bind_raise (fun e => isinstance_Exception e = true));
          [intros e'; apply health_loop_Exception | discriminate].
    + exists (Ok (Answer (error_response "source_device is required"))).
      split; [|exact I].
      intros qapi t. rewrite (bind_lift_Ok _ _ _ _ eq_refl), Htruthy. reflexivity.
  - exists (Raise e). split.
    + intros qapi t. now rewrite (bind_lift_Raise _ _ _ _ eq_refl).
    + exact (py_get_Exception _ _ _ _ Hdevice).
Qed.

Lemma handle_anomaly_temperature_plan (params : pyval) :
  exists p,
    (forall qapi t, handle_anomaly_temperature qapi params t = run_plan qapi p t)
    /\ raises_Exception_only p.
Proof.
  unfold handle_anomaly_temperature.
  destruct (py_get params "source_device" PNone) as [device|e] eqn:Hdevice;
    [|exists (Raise e); split;
      [intros qapi t; now rewrite (bind_lift_Raise _ _ _ _ eq_refl)
      |exact (py_get_Exception _ _ _ _ Hdevice)]].
  destruct (v <- py_get params "threshold" (PFloat default_threshold) ;; py_float v)
    as [threshold|e] eqn:Hthreshold;
    [|exists (Raise e); split;
      [intros qapi t;
       now rewrite (bind_lift_Ok _ _ _ _ eq_refl), (bind_lift_Raise _ _ _ _ eq_refl)
      |exact (param_Exception _ _ _ _ _ py_float_Exception Hthreshold)]].
  destruct (v <- py_get params "window_minutes" (PInt 20) ;; py_int v)
    as [window|e] eqn:Hwindow;
    [|exists (Raise e); split;
      [intros qapi t;
       now rewrite !(bind_lift_Ok _ _ _ _ eq_refl), (bind_lift_Raise _ _ _ _ eq_refl)
      |exact (param_Exception _ _ _ _ _ py_int_Exception Hwindow)]].
  exists (Ok (Ask (anomaly_flux device window)
                (fun tables =>
                        values <- value_column tables ;;
                        if Z.of_nat (List.length values) <? 2
                        then ret (success_response (PStr "not enough data"))
                        else
                          ratio <- (if py_ne_int (hd PNone values) 0
                                    then q <- py_truediv (last values PNone) (hd PNone values) ;;
                                         ret (NFloat q)
                                    else ret (NInt 0)) ;;
                          ret (anomaly_answer device (hd PNone values) (last values PNone)
                                 (round2 ratio) (num_ge ratio (NFloat threshold)))))).
  split.
  - intros qapi t. rewrite !(bind_lift_Ok _ _ _ _ eq_refl), bind_query. unfold run_plan.
    destruct (qapi _ INFLUXDB_ORG) as [tables|e]; [|reflexivity].
    simpl. destruct (value_column tables) as [values|e]; [|reflexivity].
    simpl. destruct (Z.of_nat (List.length values) <? 2); [reflexivity|].
    destruct (py_ne_int (hd PNone values) 0); [|reflexivity].
    simpl. destruct (py_truediv (last values PNone) (hd PNone values)); reflexivity.
  - intros tables e. cbv beta.
    apply (bind_raise (fun e => isinstance_Exception e = true));
      [apply value_column_Exception | intros values].
    clear e. intros e. destruct (Z.of_nat (List.length values) <? 2); [discriminate|].
    apply (bind_raise (fun e => isinstance_Exception e = true)); [|discriminate].
    clear e. intros e. destruct (py_ne_int (hd PNone values) 0); [|discriminate].
    apply (bind_raise (fun e => isinstance_Exception e = true));
      [apply py_truediv_Exception | discriminate].
Qed.

Lemma dispatch_plan (data : string) :
  exists p,
    (forall qapi t, dispatch qapi data t = run_plan qapi p t)
    /\ raises_Exception_only p.
Proof.
  unfold dispatch.
  destruct (json_loads data) as [request|e] eqn:Hloads;
    [|exists (Raise e); split;
      [intros qapi t; now rewrite (bind_lift_Raise _ _ _ _ eq_refl)
      |exact (json_loads_raises _ _ Hloads)]].
  destruct (py_get request "query_type" PNone) as [query_type|e] eqn:Htype;
    [|exists (Raise e); split;
      [intros qapi t;
       now rewrite (bind_lift_Ok _ _ _ _ eq_refl), (bind_lift_Raise _ _ _ _ Htype)
      |exact (py_get_Exception _ _ _ _ Htype)]].
  destruct (py_get request "params" (PDict [])) as [params|e] eqn:Hparams;
    [|exists (Raise e); split;
      [intros qapi t;
       now rewrite (bind_lift_Ok _ _ _ _ eq_refl), (bind_lift_Ok _ _ _ _ Htype),
         (bind_lift_Raise _ _ _ _ Hparams)
      |exact (py_get_Exception _ _ _ _ Hparams)]].
  assert (Hstep : forall qapi t,
             (request <- lift (Ok request) ;;
              query_type <- lift (py_get request "query_type" PNone) ;;
              params <- lift (py_get request "params" (PDict [])) ;;
              if py_eq_str query_type "alerts_critical"
              then handle_alerts_critical qapi params
              else if py_eq_str query_type "device_health"
                   then handle_device_health qapi params
                   else if py_eq_str query_type "anomaly_temperature"
                        then handle_anomaly_temperature qapi params
                        else ret (error_response
                                    ("Unknown query_type: " ++ py_str query_type))) t
             = (if py_eq_str query_type "alerts_critical"
                then handle_alerts_critical qapi params
                else if py_eq_str query_type "device_health"
                     then handle_device_health qapi params
                     else if py_eq_str query_type "anomaly_temperature"
                          then handle_anomaly_temperature qapi params
                          else ret (error_response
                                      ("Unknown query_type: " ++ py_str query_type))) t).
  { intros qapi t.
    now rewrite (bind_lift_Ok _ _ _ _ eq_refl), (bind_lift_Ok _ _ _ _ Htype),
      (bind_lift_Ok _ _ _ _ Hparams). }
  destruct (py_eq_str query_type "alerts_critical") eqn:E1;
    [destruct (handle_alerts_critical_plan params) as (p & Hp & Hraises); exists p;
     split; [intros qapi t; now rewrite Hstep | exact Hraises]|].
  destruct (py_eq_str query_type "device_health") eqn:E2;
    [destruct (handle_device_health_plan params) as (p & Hp & Hraises); exists p;
     split; [intros qapi t; now rewrite Hstep | exact Hraises]|].
  destruct (py_eq_str query_type "anomaly_temperature") eqn:E3;
    [destruct (handle_anomaly_temperature_plan params) as (p & Hp & Hraises); exists p;
     split; [intros qapi t; now rewrite Hstep | exact Hraises]|].
  exists (Ok (Answer (error_response ("Unknown query_type: " ++ py_str query_type)))).
  split; [|exact I]. intros qapi t. now rewrite Hstep.
Qed.

(** The handler replies with the response of the [try] block, or with the
    error envelope of the [Exception] it raised; any other exception leaves
    the handler as the block raised it. *)
Lemma request_handler_eq (qapi : query_api) (data : string) (t : trace) :
  request_handler qapi data t =
  match dispatch qapi data t with
  | (Ok response, t') => (Ok tt, t' ++ [Responded (json_dumps response)])
  | (Raise e, t') =>
      if isinstance_Exception e
      then (Ok tt,
            (t' ++ [Logged "Error handling request"])
            ++ [Responded (json_dumps (error_response (exn_str e)))])
      else (Raise e, t')
  end.
Proof.
  unfold request_handler. rewrite bind_M_eq. unfold try_except.
  destruct (dispatch qapi data t) as [[response|e] t']; [reflexivity|].
  destruct (isinstance_Exception e); reflexivity.
Qed.

(** The outcomes of a plan under the handler: what the [try] block raises
    on its own is caught; what passes the clause, the store raised. *)
Lemma request_handler_plan (qapi : query_api) (data : string) (p : result plan)
  (t : trace) :
  (forall qapi t, dispatch qapi data t = run_plan qapi p t) ->
  raises_Exception_only p ->
  request_handler qapi data t =
  match p with
  | Raise e =>
      (Ok tt,
       t ++ [Logged "Error handling request";
             Responded (json_dumps (error_response (exn_str e)))])
  | Ok (Answer response) => (Ok tt, t ++ [Responded (json_dumps response)])
  | Ok (Ask flux derive) =>
      match qapi flux INFLUXDB_ORG with
      | Raise e =>
          if isinstance_Exception e
          then (Ok tt,
                t ++ [Queried flux INFLUXDB_ORG;
                      Logged "Error handling request";
                      Responded (json_dumps (error_response (exn_str e)))])
          else (Raise e, t ++ [Queried flux INFLUXDB_ORG])
      | Ok tables =>
          match derive tables with
          | Ok response =>
              (Ok tt,
               t ++ [Queried flux INFLUXDB_ORG; Responded (json_dumps response)])
          | Raise e =>
              (Ok tt,
               t ++ [Queried flux INFLUXDB_ORG;
                     Logged "Error handling request";
                     Responded (json_dumps (error_response (exn_str e)))])
          end
      end
  end.
Proof.
  intros Hp Hraises. rewrite request_handler_eq, Hp.
  destruct p as [[response|flux derive]|e]; simpl in *.
  - reflexivity.
  - destruct (qapi flux INFLUXDB_ORG) as [tables|e]; simpl.
    + destruct (derive tables) as [response|e] eqn:Hderive.
      * now rewrite <- app_assoc.
      * rewrite (Hraises _ _ Hderive). now rewrite <- !app_assoc.
    + destruct (isinstance_Exception e); [now rewrite <- !app_assoc | reflexivity].
  - rewrite Hraises. now rewrite <- app_assoc.
Qed.

End Pipelines.

(** ** Numbers against the rationals they denote *)

(** [v > z] for an int literal [z], read on the rationals. *)
Lemma num_gt_int_Q (v : num) (q : Q) (z : Z) :
  num_Q v = Some q -> num_gt v (NInt z) = true <-> (inject_Z z < q)%Q.
Proof.
  unfold num_Q, num_gt, num_compare. simpl (denote (NInt z)).
  destruct (denote v) as [| |m e]; try discriminate.
  intros H. injection H as <-. simpl xreal_compare. unfold fin_compare.
  destruct (0 <=? e) eqn:He.
  - apply Z.leb_le in He. rewrite Z.min_r by exact He.
    rewrite Z.sub_0_r, Z.sub_diag, Z.mul_1_r.
    rewrite <- Zlt_Qlt.
    destruct (Z.compare_spec (m * 2 ^ e) z) as [E|E|E]; split; intros H;
      try discriminate; try reflexivity; lia.
  - apply Z.leb_gt in He. rewrite Z.min_l by lia.
    rewrite Z.sub_diag, Z.mul_1_r, Z.sub_0_l.
    assert (Hpos : 0 < 2 ^ (- e)) by (apply Z.pow_pos_nonneg; lia).
    unfold Qlt. simpl Qnum. simpl Qden.
    rewrite Z2Pos.id by exact Hpos. rewrite Z.mul_1_r.
    destruct (Z.compare_spec m (z * 2 ^ (- e))) as [E|E|E]; split; intros H;
      try discriminate; try reflexivity; lia.
Qed.


(** The numbers on values Python is known for: the literal [1.3],
    [round(0.125, 2) == 0.12] and [round(2.675, 2) == 2.67],
    [0 / -5 == -0.0], [int(-3.5) == -3]. *)
Example literal_1_3 : default_threshold = S754_finite false 5854679515581645 (-52).
Proof. reflexivity. Qed.

Example round_ties_to_even :
  float_round2 (nearest_ratio false 125 1000) = nearest_ratio false 12 100.
Proof. vm_compute. reflexivity. Qed.

Example round_reads_the_binary_value :
  float_round2 (nearest_ratio false 2675 1000) = nearest_ratio false 267 100.
Proof. vm_compute. reflexivity. Qed.

Example true_division_keeps_the_sign_of_zero : int_truediv 0 (-5) = Ok (S754_zero true).
Proof. reflexivity. Qed.

Example int_truncates_towards_zero : int_of_float (nearest_ratio true 7 2) = Ok (-3).
Proof. vm_compute. reflexivity. Qed.

Lemma fin_compare_antisym (m1 e1 m2 e2 : Z) :
  fin_compare m1 e1 m2 e2 = CompOpp (fin_compare m2 e2 m1 e1).
Proof.
  unfold fin_compare. rewrite (Z.min_comm e2 e1). apply Z.compare_antisym.
Qed.

Lemma xreal_compare_antisym (a b : xreal) :
  xreal_compare a b = option_map CompOpp (xreal_compare b a).
Proof.
  destruct a as [|[|]|m1 e1], b as [|[|]|m2 e2]; simpl; try reflexivity.
  now rewrite fin_compare_antisym.
Qed.

(** [a > b] excludes [b >= a]. *)
Lemma num_gt_not_ge (a b : num) : num_gt a b = true -> num_ge b a = false.
Proof.
  unfold num_gt, num_ge, num_compare.
  rewrite (xreal_compare_antisym (denote b) (denote a)).
  destruct (xreal_compare (denote a) (denote b)) as [[| |]|]; simpl;
    intros H; try discriminate; reflexivity.
Qed.

Lemma py_eq_str_false (v : pyval) (s : string) : v <> PStr s -> py_eq_str v s = false.
Proof.
  destruct v; simpl; try reflexivity.
  intros H. apply String.eqb_neq. congruence.
Qed.

(** ** The three pipelines, run against a store that answers *)

Section Runs.

Context {rt : Runtime}.

Lemma dispatch_decoded (qapi : query_api) (data : string) (t : trace)
  (request query_type params : pyval) :
  json_loads data = Ok request ->
  py_get request "query_type" PNone = Ok query_type ->
  py_get request "params" (PDict []) = Ok params ->
  dispatch qapi data t =
  (if py_eq_str query_type "alerts_critical" then handle_alerts_critical qapi params
   else if py_eq_str query_type "device_health" then handle_device_health qapi params
   else if py_eq_str query_type "anomaly_temperature"
        then handle_anomaly_temperature qapi params
        else ret (error_response ("Unknown query_type: " ++ py_str query_type))) t.
Proof.
  intros Hloads Htype Hparams. unfold dispatch.
  now rewrite (bind_lift_Ok _ _ _ _ Hloads), (bind_lift_Ok _ _ _ _ Htype),
    (bind_lift_Ok _ _ _ _ Hparams).
Qed.

Lemma handle_device_health_run (qapi : query_api) (params device : pyval) (t : trace)
  (tables : list FluxTable) :
  py_get params "source_device" PNone = Ok device ->
  truthy device = true ->
  qapi (health_flux device) INFLUXDB_ORG = Ok tables ->
  forallb readable (all_records tables) = true ->
  handle_device_health qapi params t =
  (Ok (success_response
         (PDict [("device", device);
                 ("health", PStr (health_of (samples (all_records tables))))])),
   t ++ [Queried (health_flux device) INFLUXDB_ORG]).
Proof.
  intros Hdevice Htruthy Hstore Hreadable. unfold handle_device_health.
  rewrite (bind_lift_Ok _ _ _ _ Hdevice), Htruthy.
  change (negb true) with false. cbv iota.
  rewrite bind_query, Hstore, for_each_tables, (health_loop _ _ Hreadable).
  unfold health_of. destruct (last_opt (samples (all_records tables))); reflexivity.
Qed.

Lemma handle_device_health_falsy (qapi : query_api) (params device : pyval) (t : trace) :
  py_get params "source_device" PNone = Ok device ->
  truthy device = false ->
  handle_device_health qapi params t =
  (Ok (error_response "source_device is required"), t).
Proof.
  intros Hdevice Hfalsy. unfold handle_device_health.
  now rewrite (bind_lift_Ok _ _ _ _ Hdevice), Hfalsy.
Qed.

Lemma handle_anomaly_temperature_run (qapi : query_api) (params device : pyval)
  (threshold : spec_float) (window : Z) (t : trace) (tables : list FluxTable) :
  py_get params "source_device" PNone = Ok device ->
  (v <- py_get params "threshold" (PFloat default_threshold) ;; py_float v) = Ok threshold ->
  (v <- py_get params "window_minutes" (PInt 20) ;; py_int v) = Ok window ->
  qapi (anomaly_flux device window) INFLUXDB_ORG = Ok tables ->
  forallb readable (all_records tables) = true ->
  let values := field_values (all_records tables) in
  handle_anomaly_temperature qapi params t =
  ((if Z.of_nat (List.length values) <? 2
    then Ok (success_response (PStr "not enough data"))
    else
      ratio <- (if py_ne_int (hd PNone values) 0
                then q <- py_truediv (last values PNone) (hd PNone values) ;; ret (NFloat q)
                else ret (NInt 0)) ;;
      ret (anomaly_answer device (hd PNone values) (last values PNone)
             (round2 ratio) (num_ge ratio (NFloat threshold)))),
   t ++ [Queried (anomaly_flux device window) INFLUXDB_ORG]).
Proof.
  intros Hdevice Hthreshold Hwindow Hstore Hreadable values.
  unfold handle_anomaly_temperature.
  rewrite (bind_lift_Ok _ _ _ _ Hdevice), (bind_lift_Ok _ _ _ _ Hthreshold),
    (bind_lift_Ok _ _ _ _ Hwindow).
  rewrite bind_query, Hstore, (bind_lift_Ok _ _ _ _ (value_column_readable _ Hreadable)).
  fold values. destruct (Z.of_nat (List.length values) <? 2); [reflexivity|].
  destruct (py_ne_int (hd PNone values) 0); [|reflexivity].
  simpl. destruct (py_truediv (last values PNone) (hd PNone values)); reflexivity.
Qed.

Lemma alert_row_reads_as (record : FluxRecord) (e : event_record) :
  reads_as record e -> alert_row record = Ok (event_dict e).
Proof.
  intros (Htime & Hid & Hdevice & Htype & level & Hlevel & Hint).
  unfold alert_row, get_time.
  rewrite Htime, (getitem_assoc _ _ _ Hid), (getitem_assoc _ _ _ Hdevice),
    (getitem_assoc _ _ _ Htype), (getitem_assoc _ _ _ Hlevel).
  simpl. rewrite Hint. reflexivity.
Qed.

Lemma alert_row_bad_criticality (record : FluxRecord) :
  bad_criticality record -> exists e, alert_row record = Raise e.
Proof.
  intros (time & event_id & source_device & event_type & level & e
          & Htime & Hid & Hdevice & Htype & Hlevel & Hint).
  exists e. unfold alert_row, get_time.
  rewrite Htime, (getitem_assoc _ _ _ Hid), (getitem_assoc _ _ _ Hdevice),
    (getitem_assoc _ _ _ Htype), (getitem_assoc _ _ _ Hlevel).
  simpl. rewrite Hint. reflexivity.
Qed.

Lemma alert_loop (rs : list FluxRecord) (events : list event_record) (acc : list pyval) :
  Forall2 reads_as rs events ->
  for_each rs (fun result record => row <- alert_row record ;; ret (result ++ [row])) acc
  = Ok (acc ++ map event_dict events).
Proof.
  intros H. revert acc. induction H as [|r e rs events Hr _ IH]; intros acc; simpl.
  - now rewrite app_nil_r.
  - rewrite (alert_row_reads_as r e Hr). simpl. rewrite IH, <- app_assoc. reflexivity.
Qed.

Lemma alert_rows_reads_as (tables : list FluxTable) (events : list event_record) :
  Forall2 reads_as (all_records tables) events ->
  alert_rows tables = Ok (map event_dict events).
Proof.
  intros H. unfold alert_rows. rewrite for_each_tables. now rewrite (alert_loop _ _ _ H).
Qed.

Lemma alert_rows_bad_criticality (tables : list FluxTable) :
  Exists bad_criticality (all_records tables) ->
  exists e, alert_rows tables = Raise e.
Proof.
  intros H. unfold alert_rows. rewrite for_each_tables. apply for_each_raises.
  eapply Exists_impl; [|exact H].
  intros r Hr acc. destruct (alert_row_bad_criticality r Hr) as [e He].
  exists e. now rewrite He.
Qed.

Lemma all_str_devices (events : list event_record) :
  all_str (column "source_device" (map event_dict events)) = Some (map ev_device events).
Proof.
  induction events as [|e events IH]; [reflexivity|].
  change (column "source_device" (map event_dict (e :: events)))
    with (PStr (ev_device e) :: column "source_device" (map event_dict events)).
  simpl all_str. now rewrite IH.
Qed.

Lemma summary_of_events (events : list event_record) :
  summary_records (groupby_size (column "source_device" (map event_dict events)))
  = map summary_entry (count_sorted (map ev_device events)).
Proof.
  unfold groupby_size, summary_records. rewrite all_str_devices, map_map. reflexivity.
Qed.

Lemma handle_alerts_critical_run (qapi : query_api) (params : pyval)
  (since_minutes min_crit : Z) (t : trace) (tables : list FluxTable)
  (events : list event_record) :
  (v <- py_get params "since_minutes" (PInt 15) ;; py_int v) = Ok since_minutes ->
  (v <- py_get params "min_criticality" (PInt 8) ;; py_int v) = Ok min_crit ->
  qapi (alerts_flux ("-" ++ str_of_int since_minutes ++ "m") min_crit) INFLUXDB_ORG
  = Ok tables ->
  Forall2 reads_as (all_records tables) events ->
  handle_alerts_critical qapi params t =
  (Ok (PDict [("status", PStr "success");
              ("data", PList (map event_dict events));
              ("summary", PList (map summary_entry (count_sorted (map ev_device events))))]),
   t ++ [Queried (alerts_flux ("-" ++ str_of_int since_minutes ++ "m") min_crit)
           INFLUXDB_ORG]).
Proof.
  intros Hsince Hcrit Hstore Hreads. unfold handle_alerts_critical.
  rewrite (bind_lift_Ok _ _ _ _ Hsince), (bind_lift_Ok _ _ _ _ Hcrit).
  rewrite bind_query, Hstore, (bind_lift_Ok _ _ _ _ (alert_rows_reads_as _ _ Hreads)).
  destruct events as [|e events]; [reflexivity|].
  rewrite <- summary_of_events. reflexivity.
Qed.

End Runs.

(** ** The dispatcher *)

Section Dispatcher.

Context {rt : Runtime}.


(** C2: when the request is a JSON object whose [query_type] is absent or
    is none of the three pipeline names, the reply is
    [{status: "error", message: "Unknown query_type: <value>"}], where the
    value is written as [str] writes it: [None] when the key is absent or
    null, the text of a string, the digits of an int, [True] or [False],
    and the [repr] of a float, a list or an object. Nothing is queried,
    nothing is logged, nothing raises. *)
Theorem unknown_query_type_error (qapi : query_api) (data : string) (t : trace)
  (kvs : list (string * pyval)) :
  json_loads data = Ok (PDict kvs) ->
  assoc "query_type" kvs <> Some (PStr "alerts_critical") ->
  assoc "query_type" kvs <> Some (PStr "device_health") ->
  assoc "query_type" kvs <> Some (PStr "anomaly_temperature") ->
  request_handler qapi data t =
  (Ok tt,
   t ++ [Responded
           (json_dumps
              (PDict [("status", PStr "error");
                      ("message",
                       PStr ("Unknown query_type: "
                             ++ match assoc "query_type" kvs with
                                | None | Some PNone => "None"
                                | Some (PBool true) => "True"
                                | Some (PBool false) => "False"
                                | Some (PInt z) => str_of_int z
                                | Some (PStr s) => s
                                | Some v => py_repr v
                                end))]))]).
Proof.
  intros Hloads H1 H2 H3.
  set (query_type := match assoc "query_type" kvs with Some v => v | None => PNone end).
  assert (Htype : py_get (PDict kvs) "query_type" PNone = Ok query_type) by reflexivity.
  assert (Hnot : forall name,
             assoc "query_type" kvs <> Some (PStr name) -> query_type <> PStr name).
  { intros name Hname. unfold query_type.
    destruct (assoc "query_type" kvs) as [v|]; [congruence | discriminate]. }
  rewrite request_handler_eq.
  rewrite (dispatch_decoded qapi data t _ _ _ Hloads Htype eq_refl).
  rewrite (py_eq_str_false _ _ (Hnot _ H1)), (py_eq_str_false _ _ (Hnot _ H2)),
    (py_eq_str_false _ _ (Hnot _ H3)).
  unfold query_type.
  destruct (assoc "query_type" kvs) as [[|[|]| | | | |]|]; reflexivity.
Qed.

End Dispatcher.

(** ** Device health *)

Section DeviceHealth.

Context {rt : Runtime}.

(** C10: a [source_device] that is present but falsy (the empty string,
    [None] and [0] among others) is answered with
    [{status: "error", message: "source_device is required"}], and the
    trace is left as it was: the store is not queried. *)
Theorem device_health_rejects_falsy_device (qapi : query_api)
  (kvs : list (string * pyval)) (device : pyval) (t : trace) :
  assoc "source_device" kvs = Some device ->
  truthy device = false ->
  handle_device_health qapi (PDict kvs) t =
  (Ok (PDict [("status", PStr "error"); ("message", PStr "source_device is required")]), t)
  /\ truthy (PStr "") = false
  /\ truthy PNone = false
  /\ truthy (PInt 0) = false.
Proof.
  intros Hkey Hfalsy. split; [|now repeat split].
  apply (handle_device_health_falsy qapi (PDict kvs) device t); [|exact Hfalsy].
  simpl. now rewrite Hkey.
Qed.


End DeviceHealth.

(** ** Critical alerts *)

Section CriticalAlerts.

Context {rt : Runtime}.

(** C6: when every row of the result reads as an event, [data] is the list
    of the events' dicts in row order, and [summary] has exactly one entry
    [{source_device, critical_event_count}] per device present among the
    events, holding the number of its events; with no rows, [data] and
    [summary] are both the empty list, in a success envelope. *)
Theorem alerts_data_and_summary (qapi : query_api) (params : pyval)
  (since_minutes min_crit : Z) (t : trace) (tables : list FluxTable)
  (events : list event_record) :
  (v <- py_get params "since_minutes" (PInt 15) ;; py_int v) = Ok since_minutes ->
  (v <- py_get params "min_criticality" (PInt 8) ;; py_int v) = Ok min_crit ->
  qapi (alerts_flux ("-" ++ str_of_int since_minutes ++ "m") min_crit) INFLUXDB_ORG
  = Ok tables ->
  Forall2 reads_as (all_records tables) events ->
  exists counts : list (string * Z),
    handle_alerts_critical qapi params t =
    (Ok (PDict [("status", PStr "success");
                ("data", PList (map event_dict events));
                ("summary", PList (map summary_entry counts))]),
     t ++ [Queried (alerts_flux ("-" ++ str_of_int since_minutes ++ "m") min_crit)
             INFLUXDB_ORG])
    /\ NoDup (map fst counts)
    /\ (forall d, In d (map fst counts) <-> In d (map ev_device events))
    /\ (forall d n,
          In (d, n) counts ->
          n = Z.of_nat (count_occ string_dec (map ev_device events) d))
    /\ (events = [] -> counts = []).
Proof.
  intros Hsince Hcrit Hstore Hreads.
  exists (count_sorted (map ev_device events)).
  destruct (count_sorted_spec (map ev_device events)) as (Hnd & Hin & Hcount).
  repeat split; auto.
  - now apply (handle_alerts_critical_run qapi params since_minutes min_crit t tables).
  - apply Hin.
  - apply Hin.
  - now intros ->.
Qed.

End CriticalAlerts.

(** ** Temperature anomaly *)

Section TemperatureAnomaly.

Context {rt : Runtime}.

(** C7: when the result holds fewer than two values of field "value", the
    answer is the success envelope whose [data] is the string
    "not enough data". *)
Theorem anomaly_not_enough_data (qapi : query_api) (params device : pyval)
  (threshold : spec_float) (window : Z) (t : trace) (tables : list FluxTable) :
  py_get params "source_device" PNone = Ok device ->
  (v <- py_get params "threshold" (PFloat default_threshold) ;; py_float v) = Ok threshold ->
  (v <- py_get params "window_minutes" (PInt 20) ;; py_int v) = Ok window ->
  qapi (anomaly_flux device window) INFLUXDB_ORG = Ok tables ->
  forallb readable (all_records tables) = true ->
  (List.length (field_values (all_records tables)) < 2)%nat ->
  handle_anomaly_temperature qapi params t =
  (Ok (PDict [("status", PStr "success"); ("data", PStr "not enough data")]),
   t ++ [Queried (anomaly_flux device window) INFLUXDB_ORG]).
Proof.
  intros Hdevice Hthreshold Hwindow Hstore Hreadable Hfew.
  rewrite (handle_anomaly_temperature_run qapi params device threshold window t tables)
    by assumption.
  cbv zeta.
  destruct (Z.ltb_spec (Z.of_nat (List.length (field_values (all_records tables)))) 2);
    [reflexivity | lia].
Qed.

(** C4, as the code has it: on two or more values whose first is a number
    equal to zero, the ratio is the int [0] and the flag is [0 >= threshold],
    false for every threshold above zero; on two or more values whose
    quotient [latest / initial] is the float [q], the flag is
    [q >= threshold], decided on the quotient before it is rounded, and the
    ratio answered is [round(q, 2)]. Values [20.0, 30.0] under the default
    threshold 1.3 give ratio 1.5 and flag true; values [20.0, 22.0] give
    ratio 1.1 and flag false. *)
Theorem anomaly_ratio_and_flag (qapi : query_api) (params device : pyval)
  (threshold : spec_float) (window : Z) (t : trace) (tables : list FluxTable) :
  py_get params "source_device" PNone = Ok device ->
  (v <- py_get params "threshold" (PFloat default_threshold) ;; py_float v) = Ok threshold ->
  (v <- py_get params "window_minutes" (PInt 20) ;; py_int v) = Ok window ->
  qapi (anomaly_flux device window) INFLUXDB_ORG = Ok tables ->
  forallb readable (all_records tables) = true ->
  let values := field_values (all_records tables) in
  let initial := hd PNone values in
  let latest := last values PNone in
  let asked := t ++ [Queried (anomaly_flux device window) INFLUXDB_ORG] in
  (2 <= List.length values)%nat ->
  (py_ne_int initial 0 = false ->
   handle_anomaly_temperature qapi params t =
   (Ok (anomaly_answer device initial latest
          (NInt 0) (num_ge (NInt 0) (NFloat threshold))),
    asked)
   /\ (num_gt (NFloat threshold) (NInt 0) = true ->
       num_ge (NInt 0) (NFloat threshold) = false))
  /\ (forall q,
        py_ne_int initial 0 = true ->
        py_truediv latest initial = Ok q ->
        handle_anomaly_temperature qapi params t =
        (Ok (anomaly_answer device initial latest
               (NFloat (float_round2 q)) (num_ge (NFloat q) (NFloat threshold))),
         asked))
  /\ (values = [PFloat (float_lit 20); PFloat (float_lit 30)] ->
      threshold = default_threshold ->
      handle_anomaly_temperature qapi params t =
      (Ok (anomaly_answer device (PFloat (float_lit 20)) (PFloat (float_lit 30))
             (NFloat (nearest_ratio false 15 10)) true),
       asked))
  /\ (values = [PFloat (float_lit 20); PFloat (float_lit 22)] ->
      threshold = default_threshold ->
      handle_anomaly_temperature qapi params t =
      (Ok (anomaly_answer device (PFloat (float_lit 20)) (PFloat (float_lit 22))
             (NFloat (nearest_ratio false 11 10)) false),
       asked)).
Proof.
  intros Hdevice Hthreshold Hwindow Hstore Hreadable values initial latest asked Hlen.
  pose proof (handle_anomaly_temperature_run qapi params device threshold window t tables
                Hdevice Hthreshold Hwindow Hstore Hreadable) as Hrun.
  cbv zeta in Hrun. fold values in Hrun. fold initial latest asked in Hrun.
  destruct (Z.ltb_spec (Z.of_nat (List.length values)) 2) as [Hlt|_]; [lia|].
  split; [|split; [|split]].
  - intros Hzero. split; [|apply num_gt_not_ge].
    rewrite Hrun, Hzero. reflexivity.
  - intros q Hne Hdiv. rewrite Hrun, Hne, Hdiv. reflexivity.
  - intros Hvalues ->. rewrite Hrun. unfold initial, latest. rewrite Hvalues.
    apply f_equal2; [vm_compute; reflexivity | reflexivity].
  - intros Hvalues ->. rewrite Hrun. unfold initial, latest. rewrite Hvalues.
    apply f_equal2; [vm_compute; reflexivity | reflexivity].
Qed.

(** C3, at the request the code answers otherwise: with no [source_device]
    in the parameters, the temperature-anomaly pipeline queries the store
    for the device "None" and, the store finding no rows, answers
    "not enough data" in a success envelope; the device-health pipeline
    answers the same parameters with the error, unqueried. *)
Theorem anomaly_without_device_queries_store (qapi : query_api) (t : trace) :
  qapi (anomaly_flux PNone 20) INFLUXDB_ORG = Ok [] ->
  handle_anomaly_temperature qapi (PDict []) t =
  (Ok (PDict [("status", PStr "success"); ("data", PStr "not enough data")]),
   t ++ [Queried (anomaly_flux PNone 20) INFLUXDB_ORG])
  /\ handle_device_health qapi (PDict []) t =
     (Ok (PDict [("status", PStr "error"); ("message", PStr "source_device is required")]),
      t).
Proof.
  intros Hstore. split.
  - rewrite (handle_anomaly_temperature_run qapi (PDict []) PNone default_threshold 20 t [])
      by (try reflexivity; exact Hstore).
    reflexivity.
  - now apply (handle_device_health_falsy qapi (PDict []) PNone t).
Qed.

End TemperatureAnomaly.

(** ** Rows whose criticality or value is not a number *)

Lemma all_records_without_non_numeric (tables : list FluxTable) :
  all_records (map without_non_numeric tables)
  = filter (fun r => negb (non_numeric_sample r)) (all_records tables).
Proof.
  induction tables as [|table tables IH]; simpl; [reflexivity|].
  now rewrite filter_app, IH.
Qed.

Lemma samples_cons (r : FluxRecord) (rs : list FluxRecord) :
  samples (r :: rs)
  = flat_map (fun v => keep_some (as_num v)) (keep_some (field_value r)) ++ samples rs.
Proof. unfold samples, field_values. simpl. now rewrite flat_map_app. Qed.

Lemma samples_filter_non_numeric (rs : list FluxRecord) :
  samples (filter (fun r => negb (non_numeric_sample r)) rs) = samples rs.
Proof.
  induction rs as [|r rs IH]; simpl; [reflexivity|].
  rewrite (samples_cons r rs).
  destruct (non_numeric_sample r) eqn:Hnn; simpl.
  - unfold non_numeric_sample, isinstance_int_float in Hnn.
    destruct (field_value r) as [v|]; [|discriminate].
    simpl. destruct (as_num v); [discriminate | exact IH].
  - now rewrite samples_cons, IH.
Qed.

Lemma forallb_filter {A} (p f : A -> bool) (l : list A) :
  forallb p l = true -> forallb p (filter f l) = true.
Proof.
  induction l as [|a l IH]; simpl; [reflexivity|].
  intros H. apply andb_true_iff in H as [Ha Hl].
  destruct (f a); simpl; [rewrite Ha|]; auto.
Qed.

Section NonNumeric.

Context {rt : Runtime}.

(** C8, as the code has it. Device health skips a record whose value is
    neither an int nor a float: the answer is the same success envelope
    with or without such records in the result. Critical alerts coerce the
    criticality with [int()]: when a record of the result has a criticality
    that [int()] rejects, the request is answered with an error envelope,
    after the query and one log line. *)
Theorem non_numeric_rows (health_store cleaned_store alerts_store : query_api)
  (params device : pyval) (tables : list FluxTable)
  (data : string) (request alert_params : pyval) (since_minutes min_crit : Z)
  (alert_tables : list FluxTable) (t : trace) :
  py_get params "source_device" PNone = Ok device ->
  truthy device = true ->
  health_store (health_flux device) INFLUXDB_ORG = Ok tables ->
  cleaned_store (health_flux device) INFLUXDB_ORG = Ok (map without_non_numeric tables) ->
  forallb readable (all_records tables) = true ->
  json_loads data = Ok request ->
  py_get request "query_type" PNone = Ok (PStr "alerts_critical") ->
  py_get request "params" (PDict []) = Ok alert_params ->
  (v <- py_get alert_params "since_minutes" (PInt 15) ;; py_int v) = Ok since_minutes ->
  (v <- py_get alert_params "min_criticality" (PInt 8) ;; py_int v) = Ok min_crit ->
  alerts_store (alerts_flux ("-" ++ str_of_int since_minutes ++ "m") min_crit)
    INFLUXDB_ORG = Ok alert_tables ->
  Exists bad_criticality (all_records alert_tables) ->
  (exists response,
      fst (handle_device_health health_store params t) = Ok response
      /\ fst (handle_device_health cleaned_store params t) = Ok response
      /\ status_of response = Some (PStr "success"))
  /\ (exists e,
         request_handler alerts_store data t =
         (Ok tt,
          t ++ [Queried (alerts_flux ("-" ++ str_of_int since_minutes ++ "m") min_crit)
                  INFLUXDB_ORG;
                Logged "Error handling request";
                Responded
                  (json_dumps
                     (PDict [("status", PStr "error"); ("message", PStr (exn_str e))]))])).
Proof.
  intros Hdevice Htruthy Hstore Hcleaned Hreadable
    Hloads Htype Hparams Hsince Hcrit Halerts Hbad.
  split.
  - eexists. split; [|split].
    + rewrite (handle_device_health_run health_store params device t tables) by assumption.
      reflexivity.
    + rewrite (handle_device_health_run cleaned_store params device t
                 (map without_non_numeric tables));
        try assumption.
      * rewrite all_records_without_non_numeric, samples_filter_non_numeric. reflexivity.
      * rewrite all_records_without_non_numeric. now apply forallb_filter.
    + reflexivity.
  - destruct (alert_rows_bad_criticality alert_tables Hbad) as [e He].
    exists e. rewrite request_handler_eq.
    rewrite (dispatch_decoded alerts_store data t _ _ _ Hloads Htype Hparams).
    change (py_eq_str (PStr "alerts_critical") "alerts_critical") with true. cbv iota.
    unfold handle_alerts_critical.
    rewrite (bind_lift_Ok _ _ _ _ Hsince), (bind_lift_Ok _ _ _ _ Hcrit).
    rewrite bind_query, Halerts, (bind_lift_Raise _ _ _ _ He).
    rewrite (alert_rows_Exception _ _ He).
    now rewrite <- !app_assoc.
Qed.

End NonNumeric.

(** ** The handlers on the sample deployment *)

(** A body that is not JSON, a store that is down, a row without its
    [_field] column and a reading that is not a number: each is answered
    with one error envelope. *)
Example malformed_body_is_answered :
  request_handler (rt := sample_runtime) store_down "not json" []
  = (Ok tt,
     [Logged "Error handling request";
      Responded (render (error_response "Expecting value: line 1 column 1 (char 0)"))]).
Proof. vm_compute. reflexivity. Qed.

Example store_failure_is_answered :
  exists flux,
    request_handler (rt := sample_runtime) store_down msg_health []
    = (Ok tt,
       [Queried flux "plant";
        Logged "Error handling request";
        Responded (render (error_response "(503) Service Unavailable"))]).
Proof. eexists. vm_compute. reflexivity. Qed.

Example missing_column_is_answered :
  exists flux,
    request_handler (rt := sample_runtime)
      (store_of [ {| records := [event_row "2024-05-01T10:00:00+00:00" "e1" "B" "vibration"
                                   (PInt 8)] |} ])
      msg_health []
    = (Ok tt,
       [Queried flux "plant";
        Logged "Error handling request";
        Responded (render (error_response "'_field'"))]).
Proof. eexists. vm_compute. reflexivity. Qed.

Example text_reading_is_answered :
  fst (handle_anomaly_temperature (rt := sample_runtime)
         (store_of (series [PFloat (float_lit 20); PStr "n/a"]))
         sample_health_params [])
  = Raise (Exn TypeError "unsupported operand type(s) for /: 'str' and 'float'").
Proof. vm_compute. reflexivity. Qed.

Lemma unknown_query_type_error_witness :
  json_loads (Runtime := runtime_decoding untyped_requests) msg_number
  = Ok (PDict [("query_type", PInt 5)])
  /\ request_handler (rt := runtime_decoding untyped_requests) store_down msg_number []
     = (Ok tt,
        [] ++ [Responded
                 (render
                    (PDict [("status", PStr "error");
                            ("message", PStr "Unknown query_type: 5")]))])
  /\ request_handler (rt := runtime_decoding untyped_requests) store_down msg_flag []
     = (Ok tt,
        [] ++ [Responded
                 (render
                    (PDict [("status", PStr "error");
                            ("message", PStr "Unknown query_type: True")]))])
  /\ request_handler (rt := runtime_decoding untyped_requests) store_down msg_empty []
     = (Ok tt,
        [] ++ [Responded
                 (render
                    (PDict [("status", PStr "error");
                            ("message", PStr "Unknown query_type: None")]))])
  /\ request_handler (rt := sample_runtime) store_down msg_unknown []
     = (Ok tt,
        [] ++ [Responded
                 (render
                    (PDict [("status", PStr "error");
                            ("message", PStr "Unknown query_type: uptime")]))]).
Proof.
  split; [vm_compute; reflexivity|]. split; [|split; [|split]].
  - apply (unknown_query_type_error (rt := runtime_decoding untyped_requests)
             store_down msg_number [] [("query_type", PInt 5)]);
      try discriminate; vm_compute; reflexivity.
  - apply (unknown_query_type_error (rt := runtime_decoding untyped_requests)
             store_down msg_flag [] [("query_type", PBool true)]);
      try discriminate; vm_compute; reflexivity.
  - apply (unknown_query_type_error (rt := runtime_decoding untyped_requests)
             store_down msg_empty [] []);
      try discriminate; vm_compute; reflexivity.
  - apply (unknown_query_type_error (rt := sample_runtime)
             store_down msg_unknown [] [("query_type", PStr "uptime")]);
      try discriminate; vm_compute; reflexivity.
Defined.

Lemma device_health_rejects_falsy_device_witness :
  assoc "source_device" [("source_device", PStr "")] = Some (PStr "")
  /\ truthy (PStr "") = false
  /\ handle_device_health (rt := sample_runtime) store_down
       (PDict [("source_device", PStr "")]) []
     = (Ok (PDict [("status", PStr "error");
                   ("message", PStr "source_device is required")]), []).
Proof.
  split; [reflexivity|]. split; [reflexivity|].
  apply (device_health_rejects_falsy_device (rt := sample_runtime) store_down
           [("source_device", PStr "")] (PStr "") []); reflexivity.
Defined.


Lemma alerts_data_and_summary_witness :
  Forall2 (reads_as (rt := sample_runtime)) (all_records sample_alert_tables) sample_events
  /\ exists counts,
      handle_alerts_critical (rt := sample_runtime) (store_of sample_alert_tables)
        (PDict [("min_criticality", PInt 8)]) []
      = (Ok (PDict [("status", PStr "success");
                    ("data", PList (map event_dict sample_events));
                    ("summary", PList (map summary_entry counts))]),
         [] ++ [Queried (alerts_flux (rt := sample_runtime) "-15m" 8) "plant"])
      /\ (In "A" (map fst counts) /\ In "B" (map fst counts))
      /\ (forall n, In ("A", n) counts -> n = 2)
      /\ (forall n, In ("B", n) counts -> n = 1).
Proof.
  assert (Hreads : Forall2 (reads_as (rt := sample_runtime))
                     (all_records sample_alert_tables) sample_events).
  { repeat constructor; eexists; split; reflexivity. }
  split; [exact Hreads|].
  destruct (alerts_data_and_summary (rt := sample_runtime) (store_of sample_alert_tables)
              (PDict [("min_criticality", PInt 8)]) 15 8 [] sample_alert_tables
              sample_events eq_refl eq_refl eq_refl Hreads)
    as (counts & Hrun & _ & Hin & Hcount & _).
  exists counts. split; [exact Hrun|]. split; [|split].
  - split; apply Hin; simpl; auto.
  - intros n H. apply Hcount in H. exact H.
  - intros n H. apply Hcount in H. exact H.
Defined.

Lemma anomaly_not_enough_data_witness :
  forallb readable (all_records (series [PFloat (float_lit 20)])) = true
  /\ (List.length (field_values (all_records (series [PFloat (float_lit 20)]))) < 2)%nat
  /\ handle_anomaly_temperature (rt := sample_runtime)
       (store_of (series [PFloat (float_lit 20)])) sample_health_params []
     = (Ok (PDict [("status", PStr "success"); ("data", PStr "not enough data")]),
        [] ++ [Queried (anomaly_flux (rt := sample_runtime) (PStr "pump-7") 20) "plant"]).
Proof.
  split; [reflexivity|]. split; [simpl; lia|].
  apply (anomaly_not_enough_data (rt := sample_runtime)
           (store_of (series [PFloat (float_lit 20)])) sample_health_params
           (PStr "pump-7") default_threshold 20 [] (series [PFloat (float_lit 20)]));
    try reflexivity.
  simpl. lia.
Defined.

Lemma anomaly_ratio_and_flag_witness :
  forallb readable (all_records (series [PFloat (float_lit 20); PFloat (float_lit 30)])) = true
  /\ (2 <= List.length
            (field_values (all_records (series [PFloat (float_lit 20); PFloat (float_lit 30)]))))%nat
  /\ handle_anomaly_temperature (rt := sample_runtime)
       (store_of (series [PFloat (float_lit 20); PFloat (float_lit 30)]))
       sample_health_params []
     = (Ok (anomaly_answer (PStr "pump-7") (PFloat (float_lit 20)) (PFloat (float_lit 30))
              (NFloat (nearest_ratio false 15 10)) true),
        [] ++ [Queried (anomaly_flux (rt := sample_runtime) (PStr "pump-7") 20) "plant"]).
Proof.
  split; [reflexivity|]. split; [simpl; lia|].
  assert (Hlen : (2 <= List.length
                        (field_values
                           (all_records
                              (series [PFloat (float_lit 20); PFloat (float_lit 30)]))))%nat)
    by (simpl; lia).
  destruct (anomaly_ratio_and_flag (rt := sample_runtime)
              (store_of (series [PFloat (float_lit 20); PFloat (float_lit 30)]))
              sample_health_params (PStr "pump-7") default_threshold 20 []
              (series [PFloat (float_lit 20); PFloat (float_lit 30)])
              eq_refl eq_refl eq_refl eq_refl eq_refl Hlen)
    as (_ & _ & Hexample & _).
  apply Hexample; reflexivity.
Defined.

Lemma anomaly_without_device_queries_store_witness :
  store_of [] (anomaly_flux (rt := sample_runtime) PNone 20) "plant" = Ok []
  /\ request_handler (rt := sample_runtime) (store_of []) msg_anomaly_no_device []
     = (Ok tt,
        [Queried (anomaly_flux (rt := sample_runtime) PNone 20) "plant";
         Responded
           (render (PDict [("status", PStr "success"); ("data", PStr "not enough data")]))]).
Proof.
  split; [reflexivity|].
  pose proof (anomaly_without_device_queries_store (rt := sample_runtime) (store_of []) []
                eq_refl) as [Hrun _].
  rewrite request_handler_eq.
  rewrite (dispatch_decoded (rt := sample_runtime) (store_of []) msg_anomaly_no_device []
             (PDict [("query_type", PStr "anomaly_temperature"); ("params", PDict [])])
             (PStr "anomaly_temperature") (PDict []) eq_refl eq_refl eq_refl).
  cbv iota beta delta [py_eq_str String.eqb Ascii.eqb Bool.eqb].
  rewrite Hrun. reflexivity.
Defined.

Lemma non_numeric_rows_witness :
  forallb readable (all_records sample_health_tables) = true
  /\ Exists (bad_criticality (rt := sample_runtime)) (all_records sample_bad_alert_tables)
  /\ (exists response,
         fst (handle_device_health (rt := sample_runtime) (store_of sample_health_tables)
                sample_health_params [])
         = Ok response
         /\ fst (handle_device_health (rt := sample_runtime)
                   (store_of (map without_non_numeric sample_health_tables))
                   sample_health_params [])
            = Ok response
         /\ status_of response = Some (PStr "success"))
  /\ (exists e,
         request_handler (rt := sample_runtime) (store_of sample_bad_alert_tables)
           msg_alerts []
         = (Ok tt,
            [] ++ [Queried (alerts_flux (rt := sample_runtime) "-15m" 8) "plant";
                   Logged "Error handling request";
                   Responded
                     (render (PDict [("status", PStr "error");
                                     ("message", PStr (exn_str e))]))])).
Proof.
  assert (Hbad : Exists (bad_criticality (rt := sample_runtime))
                   (all_records sample_bad_alert_tables)).
  { apply Exists_cons_tl, Exists_cons_hd. do 6 eexists. repeat split; reflexivity. }
  split; [reflexivity|]. split; [exact Hbad|].
  apply (non_numeric_rows (rt := sample_runtime)
           (store_of sample_health_tables)
           (store_of (map without_non_numeric sample_health_tables))
           (store_of sample_bad_alert_tables)
           sample_health_params (PStr "pump-7") sample_health_tables
           msg_alerts (PDict [("query_type", PStr "alerts_critical")]) (PDict []) 15 8
           sample_bad_alert_tables []);
    try reflexivity.
  exact Hbad.
Defined.


(** C4, where the claim fails: readings [1000.0, 1296.0] under the default
    threshold 1.3. The quotient 1.296 is below the threshold, so the flag is
    false, while the ratio answered is 1.3, which is not below it. *)
Lemma anomaly_flag_before_rounding_counterexample :
  handle_anomaly_temperature (rt := sample_runtime)
    (store_of (series [PFloat (float_lit 1000); PFloat (float_lit 1296)]))
    sample_health_params []
  = (Ok (anomaly_answer (PStr "pump-7") (PFloat (float_lit 1000)) (PFloat (float_lit 1296))
           (NFloat (nearest_ratio false 13 10)) false),
     [Queried (anomaly_flux (rt := sample_runtime) (PStr "pump-7") 20) "plant"])
  /\ num_ge (NFloat (nearest_ratio false 13 10)) (NFloat default_threshold) <> false.
Proof.
  split; [vm_compute; reflexivity|].
  vm_compute. discriminate.
Qed.

(** C8, where the claim fails: the second of three events has the
    criticality "high". The request is answered with an error envelope, not
    with the two events that remain. *)
Lemma non_numeric_criticality_counterexample :
  request_handler (rt := sample_runtime) (store_of sample_bad_alert_tables) msg_alerts []
  = (Ok tt,
     [Queried (alerts_flux (rt := sample_runtime) "-15m" 8) "plant";
      Logged "Error handling request";
      Responded
        (render (PDict [("status", PStr "error");
                        ("message",
                         PStr "invalid literal for int() with base 10: 'high'")]))])
  /\ status_of (response_of (rt := sample_runtime) (store_of sample_bad_alert_tables)
                  msg_alerts [])
     <> Some (PStr "success").
Proof.
  split; [vm_compute; reflexivity|].
  vm_compute. discriminate.
Qed.

(** * Further properties of the handlers *)

(** ** Requests the dispatcher cannot read *)

Section Unreadable.

Context {rt : Runtime}.

(** A body that does not decode is answered with the error envelope of the
    decoding error, after one log line; the store is not queried. *)
Theorem undecodable_body_is_answered (qapi : query_api) (data : string) (t : trace)
  (e : exn) :
  json_loads data = Raise e ->
  request_handler qapi data t =
  (Ok tt,
   t ++ [Logged "Error handling request";
         Responded
           (json_dumps (PDict [("status", PStr "error"); ("message", PStr (exn_str e))]))]).
Proof.
  intros Hloads. rewrite request_handler_eq. unfold dispatch.
  rewrite (bind_lift_Raise _ _ _ _ Hloads), (json_loads_raises _ _ Hloads).
  now rewrite <- app_assoc.
Qed.

(** A body that decodes to something other than a JSON object (a list, a
    string, a number, [null]) has no [get]: it is answered with the error
    envelope of the attribute error that names its type, unqueried. *)
Theorem non_object_request_is_answered (qapi : query_api) (data : string) (t : trace)
  (request : pyval) :
  json_loads data = Ok request ->
  (forall kvs, request <> PDict kvs) ->
  request_handler qapi data t =
  (Ok tt,
   t ++ [Logged "Error handling request";
         Responded
           (json_dumps
              (PDict [("status", PStr "error");
                      ("message",
                       PStr (sq ++ type_name request ++ "' object has no attribute 'get'"))]))]).
Proof.
  intros Hloads Hnot. rewrite request_handler_eq. unfold dispatch.
  rewrite (bind_lift_Ok _ _ _ _ Hloads).
  assert (Hget : py_get request "query_type" PNone
                 = Raise (Exn AttributeError
                            (sq ++ type_name request ++ "' object has no attribute 'get'"))).
  { destruct request; try reflexivity. now destruct (Hnot items). }
  rewrite (bind_lift_Raise _ _ _ _ Hget). now rewrite <- app_assoc.
Qed.

(** When the request names one of the three pipelines and its [params] is
    present but is not a JSON object ([null] included), the request is
    answered with the error envelope of the attribute error, and the store
    is not queried. *)
Theorem non_object_params_are_answered (qapi : query_api) (data : string) (t : trace)
  (request query_type params : pyval) :
  json_loads data = Ok request ->
  py_get request "query_type" PNone = Ok query_type ->
  py_get request "params" (PDict []) = Ok params ->
  query_type = PStr "alerts_critical" \/ query_type = PStr "device_health"
  \/ query_type = PStr "anomaly_temperature" ->
  (forall kvs, params <> PDict kvs) ->
  request_handler qapi data t =
  (Ok tt,
   t ++ [Logged "Error handling request";
         Responded
           (json_dumps
              (PDict [("status", PStr "error");
                      ("message",
                       PStr (sq ++ type_name params ++ "' object has no attribute 'get'"))]))]).
Proof.
  intros Hloads Htype Hparams Hname Hnot. rewrite request_handler_eq.
  rewrite (dispatch_decoded qapi data t _ _ _ Hloads Htype Hparams).
  assert (Hget : forall key default,
             py_get params key default
             = Raise (Exn AttributeError
                        (sq ++ type_name params ++ "' object has no attribute 'get'"))).
  { intros key default. destruct params; try reflexivity. now destruct (Hnot items). }
  destruct Hname as [-> | [-> | ->]].
  - change (py_eq_str (PStr "alerts_critical") "alerts_critical") with true. cbv iota.
    unfold handle_alerts_critical.
    assert (Hsince : (v <- py_get params "since_minutes" (PInt 15) ;; py_int v)
                     = Raise (Exn AttributeError
                                (sq ++ type_name params ++ "' object has no attribute 'get'")))
      by now rewrite Hget.
    rewrite (bind_lift_Raise _ _ _ _ Hsince).
    now rewrite <- app_assoc.
  - change (py_eq_str (PStr "device_health") "alerts_critical") with false.
    change (py_eq_str (PStr "device_health") "device_health") with true. cbv iota.
    unfold handle_device_health.
    rewrite (bind_lift_Raise _ _ _ _ (Hget "source_device" PNone)).
    now rewrite <- app_assoc.
  - change (py_eq_str (PStr "anomaly_temperature") "alerts_critical") with false.
    change (py_eq_str (PStr "anomaly_temperature") "device_health") with false.
    change (py_eq_str (PStr "anomaly_temperature") "anomaly_temperature") with true.
    cbv iota. unfold handle_anomaly_temperature.
    rewrite (bind_lift_Raise _ _ _ _ (Hget "source_device" PNone)).
    now rewrite <- app_assoc.
Qed.

End Unreadable.

(** ** What one request does to the store and to the log *)

Section OneRequest.

Context {rt : Runtime}.


(** The store enters the outcome of a request only through its answer to
    the query the request issues: a second store that answers that query
    alike gives the same events and the same payload, whatever it answers
    elsewhere; and when the answer is an exception that is not an
    [Exception], both runs raise it after that query, unanswered. *)
Theorem reply_depends_on_issued_query_only (qapi1 qapi2 : query_api) (data : string)
  (t1 t2 : trace) :
  (forall flux org,
      In (Queried flux org) (snd (dispatch qapi1 data [])) ->
      qapi1 flux org = qapi2 flux org) ->
  (exists evs payload,
      request_handler qapi1 data t1 = (Ok tt, t1 ++ evs ++ [Responded payload])
      /\ request_handler qapi2 data t2 = (Ok tt, t2 ++ evs ++ [Responded payload]))
  \/ (exists flux e,
         qapi1 flux INFLUXDB_ORG = Raise e
         /\ isinstance_Exception e = false
         /\ request_handler qapi1 data t1 = (Raise e, t1 ++ [Queried flux INFLUXDB_ORG])
         /\ request_handler qapi2 data t2 = (Raise e, t2 ++ [Queried flux INFLUXDB_ORG])).
Proof.
  intros Hsame. destruct (dispatch_plan data) as (p & Hp & Hraises).
  rewrite Hp in Hsame.
  rewrite !(request_handler_plan _ data p _ Hp Hraises).
  destruct p as [[response|flux derive]|e]; simpl in *.
  - left. exists [], (json_dumps response). auto.
  - rewrite <- (Hsame flux INFLUXDB_ORG) by auto.
    destruct (qapi1 flux INFLUXDB_ORG) as [tables|e] eqn:Hquery.
    + left. destruct (derive tables) as [response|e].
      * exists [Queried flux INFLUXDB_ORG], (json_dumps response). auto.
      * exists [Queried flux INFLUXDB_ORG; Logged "Error handling request"],
          (json_dumps (error_response (exn_str e))).
        auto.
    + destruct (isinstance_Exception e) eqn:Hclass.
      * left. exists [Queried flux INFLUXDB_ORG; Logged "Error handling request"],
          (json_dumps (error_response (exn_str e))).
        auto.
      * right. exists flux, e. auto.
  - left. exists [Logged "Error handling request"],
      (json_dumps (error_response (exn_str e))).
    auto.
Qed.

(** When the store raises on the query a request issues, an [Exception] is
    answered with the error envelope of its text, after that single query
    and one log line; any other exception leaves the handler after the
    query, with no log line and no reply. *)
Theorem failed_query_is_answered (qapi : query_api) (data : string) (t : trace)
  (flux org : string) (e : exn) :
  In (Queried flux org) (snd (dispatch qapi data [])) ->
  qapi flux org = Raise e ->
  request_handler qapi data t =
  if isinstance_Exception e
  then (Ok tt,
        t ++ [Queried flux org;
              Logged "Error handling request";
              Responded
                (json_dumps
                   (PDict [("status", PStr "error"); ("message", PStr (exn_str e))]))])
  else (Raise e, t ++ [Queried flux org]).
Proof.
  intros Hin Hraise. destruct (dispatch_plan data) as (p & Hp & Hraises).
  rewrite Hp in Hin. rewrite (request_handler_plan qapi data p t Hp Hraises).
  destruct p as [[response|flux' derive]|e']; simpl in Hin; try contradiction.
  destruct Hin as [Heq|[]]. injection Heq as <- <-.
  rewrite Hraise. reflexivity.
Qed.

(** A parameter that [int()] or [float()] rejects, or parameters that are
    not an object, stop the critical-alerts and the temperature-anomaly
    pipelines before the query: the exception is raised with the trace
    unchanged. *)
Theorem bad_parameter_is_not_queried (qapi : query_api) (alert_params anomaly_params : pyval)
  (t : trace) (e1 e2 : exn) :
  (since_minutes <- (v <- py_get alert_params "since_minutes" (PInt 15) ;; py_int v) ;;
   min_crit <- (v <- py_get alert_params "min_criticality" (PInt 8) ;; py_int v) ;;
   ret (since_minutes, min_crit)) = Raise e1 ->
  (device <- py_get anomaly_params "source_device" PNone ;;
   threshold <- (v <- py_get anomaly_params "threshold" (PFloat default_threshold) ;;
                 py_float v) ;;
   window <- (v <- py_get anomaly_params "window_minutes" (PInt 20) ;; py_int v) ;;
   ret (device, threshold, window)) = Raise e2 ->
  handle_alerts_critical qapi alert_params t = (Raise e1, t)
  /\ handle_anomaly_temperature qapi anomaly_params t = (Raise e2, t).
Proof.
  intros Halerts Hanomaly. split.
  - unfold handle_alerts_critical.
    destruct (v <- py_get alert_params "since_minutes" (PInt 15) ;; py_int v)
      as [since_minutes|e] eqn:Hsince.
    + rewrite (bind_lift_Ok _ _ _ _ eq_refl).
      destruct (v <- py_get alert_params "min_criticality" (PInt 8) ;; py_int v)
        as [min_crit|e] eqn:Hcrit; [discriminate|].
      rewrite (bind_lift_Raise _ _ _ _ eq_refl). simpl in Halerts.
      injection Halerts as ->. reflexivity.
    + rewrite (bind_lift_Raise _ _ _ _ eq_refl). simpl in Halerts.
      injection Halerts as ->. reflexivity.
  - unfold handle_anomaly_temperature.
    destruct (py_get anomaly_params "source_device" PNone) as [device|e] eqn:Hdevice.
    + rewrite (bind_lift_Ok _ _ _ _ eq_refl).
      destruct (v <- py_get anomaly_params "threshold" (PFloat default_threshold) ;;
                py_float v) as [threshold|e] eqn:Hthreshold.
      * rewrite (bind_lift_Ok _ _ _ _ eq_refl).
        destruct (v <- py_get anomaly_params "window_minutes" (PInt 20) ;; py_int v)
          as [window|e] eqn:Hwindow; [discriminate|].
        rewrite (bind_lift_Raise _ _ _ _ eq_refl). simpl in Hanomaly.
        injection Hanomaly as ->. reflexivity.
      * rewrite (bind_lift_Raise _ _ _ _ eq_refl). simpl in Hanomaly.
        injection Hanomaly as ->. reflexivity.
    + rewrite (bind_lift_Raise _ _ _ _ eq_refl). simpl in Hanomaly.
      injection Hanomaly as ->. reflexivity.
Qed.

End OneRequest.

(** ** Numbers: the float of an int that is not zero *)

Lemma digits2_pos_size (p : positive) : digits2_pos p = Pos.size p.
Proof. induction p; simpl; congruence. Qed.

Lemma shr_1_m (mrs : shr_record) :
  0 <= shr_m mrs -> shr_m (shr_1 mrs) = shr_m mrs / 2.
Proof.
  destruct mrs as [m r s]. simpl. intros Hm.
  destruct m as [|[p|p|]|p]; simpl; try reflexivity; try lia.
  - rewrite Pos2Z.inj_xI. apply Z.div_unique with (r := 1); lia.
  - rewrite Pos2Z.inj_xO. apply Z.div_unique with (r := 0); lia.
Qed.

Lemma pow2_xI (n : positive) : 2 ^ Zpos n~1 = 2 * 2 ^ Zpos n * 2 ^ Zpos n.
Proof.
  rewrite (Pos2Z.inj_xI n). replace (2 * Z.pos n + 1) with (1 + Z.pos n + Z.pos n) by lia.
  rewrite Z.pow_add_r, Z.pow_add_r by lia. reflexivity.
Qed.

Lemma pow2_xO (n : positive) : 2 ^ Zpos n~0 = 2 ^ Zpos n * 2 ^ Zpos n.
Proof.
  rewrite (Pos2Z.inj_xO n). replace (2 * Z.pos n) with (Z.pos n + Z.pos n) by lia.
  rewrite Z.pow_add_r by lia. reflexivity.
Qed.

Lemma iter_shr_1_m (n : positive) (mrs : shr_record) :
  0 <= shr_m mrs -> shr_m (iter_pos shr_1 n mrs) = shr_m mrs / 2 ^ Zpos n.
Proof.
  assert (Hpow : forall k, 0 < 2 ^ Zpos k) by (intros k; apply Z.pow_pos_nonneg; lia).
  revert mrs. induction n as [n IH|n IH|]; intros mrs Hm; simpl iter_pos.
  - assert (H1 : 0 <= shr_m (shr_1 mrs)) by (rewrite shr_1_m by lia; apply Z.div_pos; lia).
    assert (H2 : 0 <= shr_m (iter_pos shr_1 n (shr_1 mrs)))
      by (rewrite IH by lia; apply Z.div_pos; [lia | apply Hpow]).
    rewrite IH, IH, shr_1_m by lia.
    pose proof (Hpow n).
    rewrite !Z.div_div by lia. rewrite pow2_xI. f_equal. ring.
  - assert (H2 : 0 <= shr_m (iter_pos shr_1 n mrs))
      by (rewrite IH by lia; apply Z.div_pos; [lia | apply Hpow]).
    rewrite IH, IH by lia.
    pose proof (Hpow n).
    rewrite !Z.div_div by lia. rewrite pow2_xO. f_equal.
  - rewrite shr_1_m by lia. reflexivity.
Qed.

Lemma digits_lower (p : positive) : 2 ^ (Zpos (digits2_pos p) - 1) <= Zpos p.
Proof.
  rewrite digits2_pos_size.
  pose proof (Pos.size_le p) as H.
  assert (H' : 2 ^ Zpos (Pos.size p) <= 2 * Zpos p).
  { change 2 with (Zpos 2) at 1. rewrite <- Pos2Z.inj_pow. 
    change (2 * Z.pos p) with (Zpos p~0). apply Pos2Z.pos_le_pos. exact H. }
  replace (Zpos (Pos.size p)) with (1 + (Zpos (Pos.size p) - 1)) in H' by lia.
  rewrite Z.pow_add_r in H' by lia. lia.
Qed.

Lemma shr_record_of_loc_m (m : Z) (l : location) : shr_m (shr_record_of_loc m l) = m.
Proof. destruct l as [|[| |]]; reflexivity. Qed.

Lemma fexp_ge_emin (e : Z) : SpecFloat.emin prec emax <= fexp prec emax e.
Proof. unfold fexp. apply Z.le_max_r. Qed.

Lemma shr_fexp_positive (p : positive) (e : Z) (l : location) :
  SpecFloat.emin prec emax < Zpos (digits2_pos p) + e ->
  0 < shr_m (fst (shr_fexp prec emax (Zpos p) e l))
  /\ e <= snd (shr_fexp prec emax (Zpos p) e l).
Proof.
  intros He. unfold shr_fexp, shr. simpl Zdigits2.
  pose proof (digits_lower p) as Hlow.
  assert (Hn : fexp prec emax (Zpos (digits2_pos p) + e) - e <= Zpos (digits2_pos p) - 1).
  { unfold fexp, SpecFloat.emin, prec, emax in *. lia. }
  destruct (fexp prec emax (Zpos (digits2_pos p) + e) - e) as [|n|n] eqn:En; simpl.
  - rewrite shr_record_of_loc_m. lia.
  - rewrite iter_shr_1_m by (rewrite shr_record_of_loc_m; lia).
    rewrite shr_record_of_loc_m. split; [|lia].
    apply Z.div_str_pos. split; [apply Z.pow_pos_nonneg; lia|].
    eapply Z.le_trans; [|exact Hlow]. apply Z.pow_le_mono_r; lia.
  - rewrite shr_record_of_loc_m. lia.
Qed.

Lemma round_nearest_even_positive (m : Z) (l : location) :
  0 < m -> 0 < round_nearest_even m l.
Proof.
  intros Hm. destruct l as [|[| |]]; simpl; try lia. destruct (Z.even m); lia.
Qed.

Lemma binary_round_aux_nonzero (s : bool) (p : positive) (e : Z) (l : location) :
  SpecFloat.emin prec emax <= e ->
  is_zero (binary_round_aux prec emax s (Zpos p) e l) = false.
Proof.
  intros He. unfold binary_round_aux.
  destruct (shr_fexp_positive p e l) as [Hm1 He1]; [lia|].
  destruct (shr_fexp prec emax (Zpos p) e l) as [mrs' e'] eqn:E1. simpl in Hm1, He1.
  pose proof (round_nearest_even_positive (shr_m mrs') (loc_of_shr_record mrs') Hm1) as Hr.
  destruct (round_nearest_even (shr_m mrs') (loc_of_shr_record mrs')) as [|p'|p'] eqn:E2;
    try lia.
  destruct (shr_fexp_positive p' e' loc_Exact) as [Hm2 _]; [lia|].
  destruct (shr_fexp prec emax (Zpos p') e' loc_Exact) as [mrs'' e''] eqn:E3.
  simpl in Hm2. destruct (shr_m mrs'') as [|m|m]; try lia.
  destruct (e'' <=? emax - prec); reflexivity.
Qed.

Lemma binary_round_nonzero (s : bool) (p : positive) :
  is_zero (binary_round prec emax s p 0) = false.
Proof.
  unfold binary_round, shl_align.
  pose proof (fexp_ge_emin (Zpos (digits2_pos p) + 0)) as Hge.
  destruct (fexp prec emax (Zpos (digits2_pos p) + 0) - 0) as [|d|d] eqn:Ed;
    apply binary_round_aux_nonzero; try (vm_compute; discriminate).
  lia.
Qed.

(** [float(z)] of an int that is not zero is not zero. *)
Lemma float_of_int_nonzero (z : Z) (f : spec_float) :
  z <> 0 -> float_of_int z = Ok f -> is_zero f = false.
Proof.
  intros Hz. unfold float_of_int, binary_normalize.
  destruct z as [|p|p]; [congruence| |].
  - pose proof (binary_round_nonzero false p) as H.
    destruct (binary_round prec emax false p 0); try discriminate;
      intros Heq; injection Heq as <-; reflexivity.
  - pose proof (binary_round_nonzero true p) as H.
    destruct (binary_round prec emax true p 0); try discriminate;
      intros Heq; injection Heq as <-; reflexivity.
Qed.

(** ** Critical alerts: the summary and the first row that fails *)

Lemma total_cons (k : string) (n : Z) (counts : list (string * Z)) :
  total ((k, n) :: counts) = n + total counts.
Proof. reflexivity. Qed.

Lemma total_bump (k : string) (counts : list (string * Z)) :
  total (bump k counts) = total counts + 1.
Proof.
  induction counts as [|[k' n] rest IH]; [reflexivity|].
  simpl bump. destruct (String.compare k k'); rewrite ?total_cons, ?IH; lia.
Qed.

Lemma total_count_sorted (names : list string) :
  total (count_sorted names) = Z.of_nat (List.length names).
Proof.
  unfold count_sorted.
  assert (H : forall acc,
             total (fold_left (fun counts k => bump k counts) names acc)
             = total acc + Z.of_nat (List.length names)).
  { induction names as [|k names IH]; intros acc; simpl List.length; simpl fold_left.
    - lia.
    - rewrite IH, total_bump. lia. }
  now rewrite H.
Qed.

Section AlertsMore.

Context {rt : Runtime}.

(** The counts of the summary add up to the number of events in [data]:
    every event is counted once. *)
Theorem summary_counts_every_event (qapi : query_api) (params : pyval)
  (since_minutes min_crit : Z) (t : trace) (tables : list FluxTable)
  (events : list event_record) :
  (v <- py_get params "since_minutes" (PInt 15) ;; py_int v) = Ok since_minutes ->
  (v <- py_get params "min_criticality" (PInt 8) ;; py_int v) = Ok min_crit ->
  qapi (alerts_flux ("-" ++ str_of_int since_minutes ++ "m") min_crit) INFLUXDB_ORG
  = Ok tables ->
  Forall2 reads_as (all_records tables) events ->
  exists rows counts,
    fst (handle_alerts_critical qapi params t)
    = Ok (PDict [("status", PStr "success");
                 ("data", PList rows);
                 ("summary", PList (map summary_entry counts))])
    /\ total counts = Z.of_nat (List.length rows)
    /\ List.length rows = List.length (all_records tables).
Proof.
  intros Hsince Hcrit Hstore Hreads.
  exists (map event_dict events), (count_sorted (map ev_device events)).
  rewrite (handle_alerts_critical_run qapi params since_minutes min_crit t tables events)
    by assumption.
  split; [reflexivity|]. rewrite total_count_sorted, !length_map.
  split; [reflexivity|]. symmetry. eapply Forall2_length. exact Hreads.
Qed.

(** The entries of the summary come in ascending order of device name. *)
Theorem summary_is_sorted_by_device (qapi : query_api) (params : pyval)
  (since_minutes min_crit : Z) (t : trace) (tables : list FluxTable)
  (events : list event_record) :
  (v <- py_get params "since_minutes" (PInt 15) ;; py_int v) = Ok since_minutes ->
  (v <- py_get params "min_criticality" (PInt 8) ;; py_int v) = Ok min_crit ->
  qapi (alerts_flux ("-" ++ str_of_int since_minutes ++ "m") min_crit) INFLUXDB_ORG
  = Ok tables ->
  Forall2 reads_as (all_records tables) events ->
  exists counts,
    fst (handle_alerts_critical qapi params t)
    = Ok (PDict [("status", PStr "success");
                 ("data", PList (map event_dict events));
                 ("summary", PList (map summary_entry counts))])
    /\ StronglySorted (fun a b => String.compare (fst a) (fst b) = Lt) counts.
Proof.
  intros Hsince Hcrit Hstore Hreads.
  exists (count_sorted (map ev_device events)).
  rewrite (handle_alerts_critical_run qapi params since_minutes min_crit t tables events)
    by assumption.
  split; [reflexivity|]. apply count_sorted_invariant.
Qed.

(** The first row that fails to project decides the answer: the rows before
    it are dropped and the rows after it are not read; the handler raises
    what that row raised, after the query. *)
Theorem first_failing_event_decides (qapi : query_api) (params : pyval)
  (since_minutes min_crit : Z) (t : trace) (tables : list FluxTable)
  (good : list FluxRecord) (events : list event_record) (bad : FluxRecord)
  (rest : list FluxRecord) (e : exn) :
  (v <- py_get params "since_minutes" (PInt 15) ;; py_int v) = Ok since_minutes ->
  (v <- py_get params "min_criticality" (PInt 8) ;; py_int v) = Ok min_crit ->
  qapi (alerts_flux ("-" ++ str_of_int since_minutes ++ "m") min_crit) INFLUXDB_ORG
  = Ok tables ->
  all_records tables = good ++ bad :: rest ->
  Forall2 reads_as good events ->
  alert_row bad = Raise e ->
  handle_alerts_critical qapi params t =
  (Raise e,
   t ++ [Queried (alerts_flux ("-" ++ str_of_int since_minutes ++ "m") min_crit)
           INFLUXDB_ORG]).
Proof.
  intros Hsince Hcrit Hstore Hsplit Hgood Hbad. unfold handle_alerts_critical.
  rewrite (bind_lift_Ok _ _ _ _ Hsince), (bind_lift_Ok _ _ _ _ Hcrit).
  rewrite bind_query, Hstore.
  assert (Hrows : alert_rows tables = Raise e).
  { unfold alert_rows. rewrite for_each_tables, Hsplit, for_each_app.
    rewrite (alert_loop _ _ _ Hgood). simpl. now rewrite Hbad. }
  now rewrite (bind_lift_Raise _ _ _ _ Hrows).
Qed.

End AlertsMore.

(** ** Device health: the range of the answer and its edges *)


(** A higher reading never gets a lower severity. *)
Theorem classify_is_monotone (v1 v2 : num) (q1 q2 : Q) :
  num_Q v1 = Some q1 ->
  num_Q v2 = Some q2 ->
  (q1 <= q2)%Q ->
  (severity (classify v1) <= severity (classify v2))%nat.
Proof.
  intros H1 H2 Hle. unfold classify.
  pose proof (num_gt_int_Q v1 q1 90 H1) as A90.
  pose proof (num_gt_int_Q v1 q1 70 H1) as A70.
  pose proof (num_gt_int_Q v2 q2 90 H2) as B90.
  pose proof (num_gt_int_Q v2 q2 70 H2) as B70.
  destruct (num_gt v1 (NInt 90)) eqn:E1.
  - assert (Hb : num_gt v2 (NInt 90) = true).
    { apply B90. eapply Qlt_le_trans; [|exact Hle]. now apply A90. }
    rewrite Hb. apply Nat.le_refl.
  - destruct (num_gt v1 (NInt 70)) eqn:E2.
    + assert (Hb : num_gt v2 (NInt 70) = true).
      { apply B70. eapply Qlt_le_trans; [|exact Hle]. now apply A70. }
      rewrite Hb. destruct (num_gt v2 (NInt 90)); vm_compute; lia.
    + destruct (num_gt v2 (NInt 90)); [vm_compute; lia|].
      destruct (num_gt v2 (NInt 70)); vm_compute; lia.
Qed.

Section HealthMore.

Context {rt : Runtime}.


(** A last sample that is no finite number is still classified: a NaN and
    minus infinity are answered "ok", plus infinity "critical". *)
Theorem device_health_of_nan_and_infinity (qapi : query_api) (params device : pyval)
  (t : trace) (tables : list FluxTable) (f : spec_float) :
  py_get params "source_device" PNone = Ok device ->
  truthy device = true ->
  qapi (health_flux device) INFLUXDB_ORG = Ok tables ->
  forallb readable (all_records tables) = true ->
  last_opt (samples (all_records tables)) = Some (NFloat f) ->
  num_Q (NFloat f) = None ->
  fst (handle_device_health qapi params t)
  = Ok (PDict [("status", PStr "success");
               ("data",
                PDict [("device", device);
                       ("health",
                        PStr match f with
                             | S754_infinity false => "critical"
                             | _ => "ok"
                             end)])]).
Proof.
  intros Hdevice Htruthy Hstore Hreadable Hlast Hq.
  rewrite (handle_device_health_run qapi params device t tables) by assumption.
  unfold health_of. rewrite Hlast. simpl fst.
  destruct f as [s|[|]| |s m e]; try reflexivity; discriminate.
Qed.

(** A row without its [_field] column fails the request with the key error,
    even when the rows before it held samples; the rows after it are not
    read. *)
Theorem device_health_row_without_field (qapi : query_api) (params device : pyval)
  (t : trace) (tables : list FluxTable) (good : list FluxRecord) (bad : FluxRecord)
  (rest : list FluxRecord) :
  py_get params "source_device" PNone = Ok device ->
  truthy device = true ->
  qapi (health_flux device) INFLUXDB_ORG = Ok tables ->
  all_records tables = good ++ bad :: rest ->
  forallb readable good = true ->
  assoc "_field" (flux_values bad) = None ->
  handle_device_health qapi params t =
  (Raise (Exn KeyError "'_field'"), t ++ [Queried (health_flux device) INFLUXDB_ORG]).
Proof.
  intros Hdevice Htruthy Hstore Hsplit Hgood Hbad. unfold handle_device_health.
  rewrite (bind_lift_Ok _ _ _ _ Hdevice), Htruthy.
  change (negb true) with false. cbv iota.
  rewrite bind_query, Hstore, for_each_tables, Hsplit, for_each_app.
  rewrite (health_loop _ _ Hgood). simpl for_each.
  unfold health_step at 1, get_field, getitem. rewrite Hbad. reflexivity.
Qed.

End HealthMore.

(** ** Temperature anomaly: which readings count *)

Lemma value_column_raises_key_error (tables : list FluxTable) (e : exn) :
  value_column tables = Raise e -> exn_cls e = KeyError.
Proof.
  unfold value_column. rewrite for_each_tables. intros Hloop.
  refine (for_each_raise (fun e => exn_cls e = KeyError) _ _ _ e _ Hloop).
  clear Hloop. intros values record e'. unfold value_step, get_field, get_value, getitem.
  destruct (assoc "_field" (flux_values record)) as [field|]; simpl;
    [|intros H; injection H as <-; reflexivity].
  destruct (py_eq_str field "value"); [|discriminate].
  destruct (assoc "_value" (flux_values record)); simpl;
    [discriminate | intros H; injection H as <-; reflexivity].
Qed.

Lemma num_eq_zero_float (f : spec_float) :
  num_eq (NFloat f) (NInt 0) = false -> is_zero f = false.
Proof. destruct f; simpl; try reflexivity. discriminate. Qed.

Lemma num_eq_zero_int (z : Z) : num_eq (NInt z) (NInt 0) = false -> z <> 0.
Proof. intros H ->. discriminate. Qed.

(** Behind the guard [initial != 0], the division does not divide by zero. *)
Lemma guarded_truediv (latest initial : pyval) (e : exn) :
  py_ne_int initial 0 = true ->
  py_truediv latest initial = Raise e ->
  exn_cls e <> ZeroDivisionError.
Proof.
  unfold py_ne_int, py_truediv. intros Hne.
  destruct (as_num initial) as [[y|fy]|];
    destruct (as_num latest) as [[x|fx]|];
    try (intros H; injection H as <-; discriminate).
  - apply negb_true_iff, num_eq_zero_int in Hne. unfold int_truediv.
    destruct (Z.eqb_spec y 0); [contradiction|].
    destruct (x =? 0); [discriminate|].
    destruct (nearest_ratio _ _ _); try discriminate.
    intros H; injection H as <-; discriminate.
  - apply negb_true_iff, num_eq_zero_int in Hne. simpl.
    destruct (float_of_int y) as [f|e'] eqn:Ey;
      [|unfold float_of_int in Ey;
        destruct (binary_normalize prec emax y 0 false); try discriminate;
        injection Ey as <-; intros H; injection H as <-; discriminate].
    unfold float_truediv. rewrite (float_of_int_nonzero y f Hne Ey). discriminate.
  - apply negb_true_iff, num_eq_zero_float in Hne. simpl.
    destruct (float_of_int x) as [f|e'] eqn:Ex;
      [|unfold float_of_int in Ex;
        destruct (binary_normalize prec emax x 0 false); try discriminate;
        injection Ex as <-; intros H; injection H as <-; discriminate].
    unfold float_truediv. rewrite Hne. discriminate.
  - apply negb_true_iff, num_eq_zero_float in Hne. simpl.
    unfold float_truediv. rewrite Hne. discriminate.
Qed.

Section AnomalyMore.

Context {rt : Runtime}.

Lemma py_get_raises (obj : pyval) (key : string) (default : pyval) (e : exn) :
  py_get obj key default = Raise e -> exn_cls e = AttributeError.
Proof. destruct obj; simpl; try discriminate; intros H; injection H as <-; reflexivity. Qed.

Lemma py_int_raises (v : pyval) (e : exn) :
  py_int v = Raise e -> exn_cls e <> ZeroDivisionError.
Proof.
  destruct v as [| | |f| | |]; simpl; try discriminate;
    try (intros H; injection H as <-; discriminate).
  - destruct f; simpl; try discriminate; intros H; injection H as <-; discriminate.
  - destruct (int_of_str s); [discriminate|]. intros H; injection H as <-; discriminate.
Qed.

Lemma py_float_raises (v : pyval) (e : exn) :
  py_float v = Raise e -> exn_cls e <> ZeroDivisionError.
Proof.
  assert (Hint : forall z, float_of_int z = Raise e -> exn_cls e <> ZeroDivisionError).
  { intros z. unfold float_of_int.
    destruct (binary_normalize prec emax z 0 false); try discriminate.
    intros H; injection H as <-; discriminate. }
  destruct v as [|b|z|f|s| |]; simpl; try discriminate;
    try (intros H; injection H as <-; discriminate); try apply Hint.
  destruct (float_of_str s); [discriminate|]. intros H; injection H as <-; discriminate.
Qed.

(** Unless the store itself raises one, the temperature-anomaly pipeline
    never raises a division by zero, whatever the parameters and the rows:
    a first reading equal to zero (the int, either float zero, [False]) is
    answered with ratio 0, and the float of a first reading that is not
    zero is not zero. *)
Theorem anomaly_never_divides_by_zero (qapi : query_api) (params : pyval) (t : trace)
  (e : exn) :
  (forall flux org e', qapi flux org = Raise e' -> exn_cls e' <> ZeroDivisionError) ->
  fst (handle_anomaly_temperature qapi params t) = Raise e ->
  exn_cls e <> ZeroDivisionError.
Proof.
  intros Hstore. unfold handle_anomaly_temperature.
  destruct (py_get params "source_device" PNone) as [device|e0] eqn:Hdevice.
  2:{ rewrite (bind_lift_Raise _ _ _ _ eq_refl). simpl.
      intros H; injection H as <-. rewrite (py_get_raises _ _ _ _ Hdevice). discriminate. }
  destruct (v <- py_get params "threshold" (PFloat default_threshold) ;; py_float v)
    as [threshold|e0] eqn:Hthreshold.
  2:{ rewrite (bind_lift_Ok _ _ _ _ eq_refl), (bind_lift_Raise _ _ _ _ eq_refl).
      simpl. intros H; injection H as <-.
      simpl in Hthreshold.
      destruct (py_get params "threshold" (PFloat default_threshold)) as [v|e1] eqn:Hv.
      - now apply (py_float_raises v).
      - injection Hthreshold as <-. rewrite (py_get_raises _ _ _ _ Hv). discriminate. }
  destruct (v <- py_get params "window_minutes" (PInt 20) ;; py_int v)
    as [window|e0] eqn:Hwindow.
  2:{ rewrite !(bind_lift_Ok _ _ _ _ eq_refl), (bind_lift_Raise _ _ _ _ eq_refl).
      simpl. intros H; injection H as <-.
      simpl in Hwindow.
      destruct (py_get params "window_minutes" (PInt 20)) as [v|e1] eqn:Hv.
      - now apply (py_int_raises v).
      - injection Hwindow as <-. rewrite (py_get_raises _ _ _ _ Hv). discriminate. }
  rewrite !(bind_lift_Ok _ _ _ _ eq_refl), bind_query.
  destruct (qapi (anomaly_flux device window) INFLUXDB_ORG) as [tables|e0] eqn:Hq.
  2:{ simpl. intros H; injection H as <-. eapply Hstore. exact Hq. }
  destruct (value_column tables) as [values|e0] eqn:Hvalues.
  2:{ rewrite (bind_lift_Raise _ _ _ _ eq_refl). simpl. intros H; injection H as <-.
      rewrite (value_column_raises_key_error _ _ Hvalues). discriminate. }
  rewrite (bind_lift_Ok _ _ _ _ eq_refl).
  destruct (Z.of_nat (List.length values) <? 2); [discriminate|].
  destruct (py_ne_int (hd PNone values) 0) eqn:Hne.
  - destruct (py_truediv (last values PNone) (hd PNone values)) as [q|e0] eqn:Hdiv.
    + discriminate.
    + simpl. intros H; injection H as <-. eapply guarded_truediv; eassumption.
  - discriminate.
Qed.

(** Of two or more readings only the first and the last count: two results
    with the same first and the same last value are answered alike,
    whatever lies between. *)
Theorem anomaly_reads_first_and_last_only (qapi1 qapi2 : query_api)
  (params device : pyval) (threshold : spec_float) (window : Z) (t : trace)
  (tables1 tables2 : list FluxTable) :
  py_get params "source_device" PNone = Ok device ->
  (v <- py_get params "threshold" (PFloat default_threshold) ;; py_float v) = Ok threshold ->
  (v <- py_get params "window_minutes" (PInt 20) ;; py_int v) = Ok window ->
  qapi1 (anomaly_flux device window) INFLUXDB_ORG = Ok tables1 ->
  qapi2 (anomaly_flux device window) INFLUXDB_ORG = Ok tables2 ->
  forallb readable (all_records tables1) = true ->
  forallb readable (all_records tables2) = true ->
  (2 <= List.length (field_values (all_records tables1)))%nat ->
  (2 <= List.length (field_values (all_records tables2)))%nat ->
  hd PNone (field_values (all_records tables1))
  = hd PNone (field_values (all_records tables2)) ->
  last (field_values (all_records tables1)) PNone
  = last (field_values (all_records tables2)) PNone ->
  handle_anomaly_temperature qapi1 params t = handle_anomaly_temperature qapi2 params t.
Proof.
  intros Hdevice Hthreshold Hwindow Hq1 Hq2 Hr1 Hr2 Hlen1 Hlen2 Hhd Hlast.
  rewrite (handle_anomaly_temperature_run qapi1 params device threshold window t tables1)
    by assumption.
  rewrite (handle_anomaly_temperature_run qapi2 params device threshold window t tables2)
    by assumption.
  cbv zeta. rewrite Hhd, Hlast.
  destruct (Z.ltb_spec (Z.of_nat (List.length (field_values (all_records tables1)))) 2);
    [lia|].
  destruct (Z.ltb_spec (Z.of_nat (List.length (field_values (all_records tables2)))) 2);
    [lia|].
  reflexivity.
Qed.

(** The readings are not filtered by type: with two or more values, a first
    value that is not a number, or a last value that is not a number after
    a first that is not zero, fails the request with the type error of the
    division. *)
Theorem anomaly_rejects_text_reading (qapi : query_api) (params device : pyval)
  (threshold : spec_float) (window : Z) (t : trace) (tables : list FluxTable) :
  py_get params "source_device" PNone = Ok device ->
  (v <- py_get params "threshold" (PFloat default_threshold) ;; py_float v) = Ok threshold ->
  (v <- py_get params "window_minutes" (PInt 20) ;; py_int v) = Ok window ->
  qapi (anomaly_flux device window) INFLUXDB_ORG = Ok tables ->
  forallb readable (all_records tables) = true ->
  let values := field_values (all_records tables) in
  let initial := hd PNone values in
  let latest := last values PNone in
  (2 <= List.length values)%nat ->
  as_num initial = None \/ (as_num latest = None /\ py_ne_int initial 0 = true) ->
  handle_anomaly_temperature qapi params t =
  (Raise (Exn TypeError
            ("unsupported operand type(s) for /: '" ++ type_name latest
               ++ "' and '" ++ type_name initial ++ "'")),
   t ++ [Queried (anomaly_flux device window) INFLUXDB_ORG]).
Proof.
  intros Hdevice Hthreshold Hwindow Hstore Hreadable values initial latest Hlen Hcase.
  rewrite (handle_anomaly_temperature_run qapi params device threshold window t tables)
    by assumption.
  cbv zeta. fold values. fold initial latest.
  destruct (Z.ltb_spec (Z.of_nat (List.length values)) 2); [lia|].
  assert (Hne : py_ne_int initial 0 = true).
  { destruct Hcase as [Hi | [_ Hne]]; [|exact Hne]. unfold py_ne_int. now rewrite Hi. }
  rewrite Hne. unfold py_truediv.
  destruct Hcase as [Hi | [Hl _]].
  - rewrite Hi. destruct (as_num latest) as [[x|fx]|]; reflexivity.
  - rewrite Hl. reflexivity.
Qed.

End AnomalyMore.

(** ** Start-up and shutdown *)

Lemma forever_eq (w : Startup.World) (n : nat) (h : list Startup.call) :
  Startup.forever w n h
  = (Raise (Startup.interrupt w), h ++ repeat (Startup.Sleep 1) (S n)).
Proof.
  revert h. induction n as [|n IH]; intros h.
  - reflexivity.
  - change (Startup.forever w (S n) h)
      with (Startup.forever w n (h ++ [Startup.Sleep 1])).
    rewrite IH, <- app_assoc. reflexivity.
Qed.

Lemma credentials_eq (w : Startup.World) :
  forallb Startup.present
    [Startup.INFLUXDB_TOKEN (Startup.config (Startup.environ w));
     Startup.INFLUXDB_ORG (Startup.config (Startup.environ w));
     Startup.INFLUXDB_BUCKET (Startup.config (Startup.environ w))]
  = Startup.credentials w.
Proof. reflexivity. Qed.

(** What [run] does, case by case. *)
Lemma run_eq (w : Startup.World) (h : list Startup.call) :
  let cfg := Startup.config (Startup.environ w) in
  let opened :=
    [Startup.OpenClient (Startup.INFLUXDB_HOST cfg) (Startup.INFLUXDB_TOKEN cfg)
       (Startup.INFLUXDB_ORG cfg);
     Startup.Ping] in
  let subscribed :=
    opened ++ [Startup.Connect (Startup.NATS_URL cfg);
               Startup.Subscribe (Startup.NATS_SUBJECT_REQUEST cfg)] in
  let served :=
    subscribed
    ++ [Startup.LogInfo
          ("Subscribed to NATS subject '" ++ Startup.NATS_SUBJECT_REQUEST cfg ++ "'")]
    ++ repeat (Startup.Sleep 1) (S (Startup.sleeps w)) in
  Startup.run w h =
  if negb (Startup.credentials w)
  then (Raise (Startup.SystemExit 1),
        h ++ [Startup.LogError "Missing InfluxDB credentials."])
  else if negb (Startup.ping w)
  then (Raise (Startup.SystemExit 1),
        h ++ opened ++ [Startup.LogCritical "InfluxDB ping failed."])
  else
    match Startup.connect w with
    | Raise e => (Raise e, h ++ opened ++ [Startup.Connect (Startup.NATS_URL cfg)])
    | Ok _ =>
        match Startup.subscribe w with
        | Raise e => (Raise e, h ++ subscribed)
        | Ok _ =>
            match Startup.close_bus w with
            | Raise e => (Raise e, h ++ served ++ [Startup.CloseBus])
            | Ok _ =>
                match Startup.close_client w with
                | Raise e => (Raise e, h ++ served ++ [Startup.CloseBus; Startup.CloseClient])
                | Ok _ =>
                    (Raise (Startup.interrupt w),
                     h ++ served ++ [Startup.CloseBus; Startup.CloseClient])
                end
            end
        end
    end.
Proof.
  cbv zeta. unfold Startup.run. cbv zeta. rewrite credentials_eq.
  destruct (Startup.credentials w); [|reflexivity].
  destruct (Startup.ping w).
  2:{ cbn. now rewrite <- !app_assoc. }
  destruct (Startup.connect w) as [[]|e].
  2:{ cbn. now rewrite <- !app_assoc. }
  destruct (Startup.subscribe w) as [[]|e].
  2:{ cbn. now rewrite <- !app_assoc. }
  cbn -[Startup.forever repeat].
  unfold Startup.try_finally. rewrite forever_eq.
  cbn -[repeat].
  destruct (Startup.close_bus w) as [[]|e]; cbn -[repeat].
  - destruct (Startup.close_client w) as [[]|e]; cbn -[repeat];
      rewrite <- !app_assoc; reflexivity.
  - rewrite <- !app_assoc. reflexivity.
Qed.

Lemma credentials_missing (w : Startup.World) (name : string) :
  In name ["INFLUXDB_TOKEN"; "INFLUXDB_ORG"; "INFLUXDB_BUCKET"] ->
  Startup.present (Startup.getenv (Startup.environ w) name) = false ->
  Startup.credentials w = false.
Proof.
  intros Hin Hmissing. destruct (Startup.credentials w) eqn:E; [|reflexivity].
  unfold Startup.credentials in E. rewrite forallb_forall in E.
  rewrite (E name Hin) in Hmissing. discriminate.
Qed.

(** When one of the three credentials is unset or empty, [run] logs the
    error and exits with status 1: no client is opened, nothing is pinged,
    the bus is not contacted. *)
Theorem run_without_credentials (w : Startup.World) (h : list Startup.call)
  (name : string) :
  In name ["INFLUXDB_TOKEN"; "INFLUXDB_ORG"; "INFLUXDB_BUCKET"] ->
  Startup.getenv (Startup.environ w) name = None
  \/ Startup.getenv (Startup.environ w) name = Some "" ->
  Startup.run w h =
  (Raise (Startup.SystemExit 1), h ++ [Startup.LogError "Missing InfluxDB credentials."]).
Proof.
  intros Hin Hmissing. rewrite run_eq. cbv zeta.
  rewrite (credentials_missing w name Hin); [reflexivity|].
  destruct Hmissing as [-> | ->]; reflexivity.
Qed.

(** When the store does not answer the ping, [run] exits with status 1
    after it: the bus is never contacted, and the client it opened is left
    open. *)
Theorem run_with_dead_store (w : Startup.World) (h : list Startup.call) :
  Startup.credentials w = true ->
  Startup.ping w = false ->
  let cfg := Startup.config (Startup.environ w) in
  Startup.run w h =
  (Raise (Startup.SystemExit 1),
   h ++ [Startup.OpenClient (Startup.INFLUXDB_HOST cfg) (Startup.INFLUXDB_TOKEN cfg)
           (Startup.INFLUXDB_ORG cfg);
         Startup.Ping;
         Startup.LogCritical "InfluxDB ping failed."]).
Proof.
  intros Hcred Hping. cbv zeta. rewrite run_eq. cbv zeta. now rewrite Hcred, Hping.
Qed.

(** A start that succeeds subscribes once to the configured subject, sleeps
    second by second until a sleep is interrupted, then closes the bus and
    the client in that order and raises what interrupted it. *)
Theorem run_serves_until_interrupted (w : Startup.World) (h : list Startup.call) :
  Startup.starts w = true ->
  Startup.close_bus w = Ok tt ->
  Startup.close_client w = Ok tt ->
  let cfg := Startup.config (Startup.environ w) in
  Startup.run w h =
  (Raise (Startup.interrupt w),
   h ++ [Startup.OpenClient (Startup.INFLUXDB_HOST cfg) (Startup.INFLUXDB_TOKEN cfg)
           (Startup.INFLUXDB_ORG cfg);
         Startup.Ping;
         Startup.Connect (Startup.NATS_URL cfg);
         Startup.Subscribe (Startup.NATS_SUBJECT_REQUEST cfg);
         Startup.LogInfo
           ("Subscribed to NATS subject '" ++ Startup.NATS_SUBJECT_REQUEST cfg ++ "'")]
     ++ repeat (Startup.Sleep 1) (S (Startup.sleeps w))
     ++ [Startup.CloseBus; Startup.CloseClient]).
Proof.
  unfold Startup.starts. intros Hstarts Hbus Hclient. cbv zeta. rewrite run_eq. cbv zeta.
  apply andb_true_iff in Hstarts as [Hstarts Hsubscribe].
  apply andb_true_iff in Hstarts as [Hstarts Hconnect].
  apply andb_true_iff in Hstarts as [Hcred Hping].
  rewrite Hcred, Hping, Hbus, Hclient.
  destruct (Startup.connect w); [|discriminate].
  destruct (Startup.subscribe w); [|discriminate].
  cbn -[repeat]. reflexivity.
Qed.

Lemma in_sleeps (c : Startup.call) (n : nat) :
  c <> Startup.Sleep 1 -> (In c (repeat (Startup.Sleep 1) n) <-> False).
Proof.
  intros Hc. split; [|contradiction]. intros Hin. apply repeat_spec in Hin. contradiction.
Qed.

(** The handler is subscribed only behind a store that answered: [run]
    subscribes exactly when the credentials are set, the ping succeeded and
    the bus accepted the connection, and then to the configured subject. *)
Theorem run_subscribes_iff (w : Startup.World) (subject : string) :
  In (Startup.Subscribe subject) (snd (Startup.run w []))
  <-> Startup.credentials w = true
      /\ Startup.ping w = true
      /\ Startup.is_ok (Startup.connect w) = true
      /\ subject = Startup.NATS_SUBJECT_REQUEST (Startup.config (Startup.environ w)).
Proof.
  rewrite run_eq. cbv zeta.
  destruct (Startup.credentials w), (Startup.ping w), (Startup.connect w) as [[]|e1],
    (Startup.subscribe w) as [[]|e2], (Startup.close_bus w) as [[]|e3],
    (Startup.close_client w) as [[]|e4];
    cbn [snd negb Startup.is_ok]; rewrite ?in_app_iff;
    rewrite ?(in_sleeps (Startup.Subscribe subject)) by discriminate;
    simpl In;
    (split;
     [intros H; decompose [or] H; clear H; try discriminate; try contradiction;
      match goal with
      | Heq : Startup.Subscribe _ = Startup.Subscribe _ |- _ => injection Heq as <-
      end; auto
     |intros (H1 & H2 & H3 & H4); try discriminate; subst; auto 10]).
Qed.

(** The client [run] opens is closed only at the end of a loop it reached,
    and only when closing the bus did not raise: a failed ping, a refused
    connection or a refused subscription leave it open. *)
Theorem run_closes_client_iff (w : Startup.World) :
  In Startup.CloseClient (snd (Startup.run w []))
  <-> Startup.starts w = true /\ Startup.is_ok (Startup.close_bus w) = true.
Proof.
  rewrite run_eq. cbv zeta. unfold Startup.starts.
  destruct (Startup.credentials w), (Startup.ping w), (Startup.connect w) as [[]|e1],
    (Startup.subscribe w) as [[]|e2], (Startup.close_bus w) as [[]|e3],
    (Startup.close_client w) as [[]|e4];
    cbn [snd negb andb Startup.is_ok]; rewrite ?in_app_iff;
    rewrite ?(in_sleeps Startup.CloseClient) by discriminate;
    simpl In;
    (split;
     [intros H; decompose [or] H; clear H; try discriminate; try contradiction; auto
     |intros (H1 & H2); try discriminate; auto 10]).
Qed.

(** ** The further properties on the sample deployment *)

Lemma undecodable_body_is_answered_witness :
  json_loads (Runtime := sample_runtime) "not json"
  = Raise (Exn (OtherError "JSONDecodeError") "Expecting value: line 1 column 1 (char 0)")
  /\ request_handler (rt := sample_runtime) store_down "not json" []
     = (Ok tt,
        [] ++ [Logged "Error handling request";
               Responded
                 (render (PDict [("status", PStr "error");
                                 ("message",
                                  PStr "Expecting value: line 1 column 1 (char 0)")]))]).
Proof.
  split; [reflexivity|].
  apply (undecodable_body_is_answered (rt := sample_runtime) store_down "not json" []
           (Exn (OtherError "JSONDecodeError") "Expecting value: line 1 column 1 (char 0)")).
  reflexivity.
Defined.

Lemma non_object_request_is_answered_witness :
  json_loads (Runtime := runtime_decoding more_requests) msg_list = Ok (PList [PInt 1; PInt 2])
  /\ request_handler (rt := runtime_decoding more_requests) store_down msg_list []
     = (Ok tt,
        [] ++ [Logged "Error handling request";
               Responded
                 (render (PDict [("status", PStr "error");
                                 ("message",
                                  PStr "'list' object has no attribute 'get'")]))]).
Proof.
  split; [reflexivity|].
  apply (non_object_request_is_answered (rt := runtime_decoding more_requests)
           store_down msg_list [] (PList [PInt 1; PInt 2])); [reflexivity|].
  discriminate.
Defined.

Lemma non_object_params_are_answered_witness :
  json_loads (Runtime := runtime_decoding more_requests) msg_null_params
  = Ok (PDict [("query_type", PStr "device_health"); ("params", PNone)])
  /\ request_handler (rt := runtime_decoding more_requests) store_down msg_null_params []
     = (Ok tt,
        [] ++ [Logged "Error handling request";
               Responded
                 (render (PDict [("status", PStr "error");
                                 ("message",
                                  PStr "'NoneType' object has no attribute 'get'")]))]).
Proof.
  split; [vm_compute; reflexivity|].
  apply (non_object_params_are_answered (rt := runtime_decoding more_requests)
           store_down msg_null_params []
           (PDict [("query_type", PStr "device_health"); ("params", PNone)])
           (PStr "device_health") PNone);
    try (vm_compute; reflexivity); [auto | discriminate].
Defined.

Lemma reply_depends_on_issued_query_only_witness :
  store_answering (health_flux (rt := sample_runtime) (PStr "pump-7")) sample_health_tables
    "another query" "plant"
  <> store_of sample_health_tables "another query" "plant"
  /\ exists evs payload,
      request_handler (rt := sample_runtime) (store_of sample_health_tables) msg_health []
      = (Ok tt, [] ++ evs ++ [Responded payload])
      /\ request_handler (rt := sample_runtime)
           (store_answering (health_flux (rt := sample_runtime) (PStr "pump-7"))
              sample_health_tables)
           msg_health []
         = (Ok tt, [] ++ evs ++ [Responded payload]).
Proof.
  split; [vm_compute; discriminate|].
  assert (Hsame : forall flux org,
             In (Queried flux org)
               (snd (dispatch (rt := sample_runtime) (store_of sample_health_tables)
                       msg_health [])) ->
             store_of sample_health_tables flux org
             = store_answering (health_flux (rt := sample_runtime) (PStr "pump-7"))
                 sample_health_tables flux org).
  { intros flux org Hin.
    assert (Hasked : snd (dispatch (rt := sample_runtime) (store_of sample_health_tables)
                            msg_health [])
                     = [Queried (health_flux (rt := sample_runtime) (PStr "pump-7")) "plant"])
      by (vm_compute; reflexivity).
    rewrite Hasked in Hin. destruct Hin as [Heq|[]]. injection Heq as <- <-.
    unfold store_answering, store_of. now rewrite String.eqb_refl. }
  destruct (reply_depends_on_issued_query_only (rt := sample_runtime)
              (store_of sample_health_tables)
              (store_answering (health_flux (rt := sample_runtime) (PStr "pump-7"))
                 sample_health_tables)
              msg_health [] [] Hsame)
    as [Hreplied | (flux & e & Hraised & _)].
  - exact Hreplied.
  - discriminate Hraised.
Defined.

Lemma failed_query_is_answered_witness :
  In (Queried (health_flux (rt := sample_runtime) (PStr "pump-7")) "plant")
    (snd (dispatch (rt := sample_runtime) store_down msg_health []))
  /\ request_handler (rt := sample_runtime) store_down msg_health []
     = (Ok tt,
        [] ++ [Queried (health_flux (rt := sample_runtime) (PStr "pump-7")) "plant";
               Logged "Error handling request";
               Responded
                 (render (PDict [("status", PStr "error");
                                 ("message", PStr "(503) Service Unavailable")]))])
  /\ request_handler (rt := sample_runtime) store_interrupted msg_health []
     = (Raise (Exn (OtherError "KeyboardInterrupt") ""),
        [] ++ [Queried (health_flux (rt := sample_runtime) (PStr "pump-7")) "plant"]).
Proof.
  assert (Hdown : In (Queried (health_flux (rt := sample_runtime) (PStr "pump-7")) "plant")
                    (snd (dispatch (rt := sample_runtime) store_down msg_health [])))
    by (vm_compute; auto).
  assert (Hint : In (Queried (health_flux (rt := sample_runtime) (PStr "pump-7")) "plant")
                   (snd (dispatch (rt := sample_runtime) store_interrupted msg_health [])))
    by (vm_compute; auto).
  split; [exact Hdown|]. split.
  - exact (failed_query_is_answered (rt := sample_runtime) store_down msg_health [] _ _
             (Exn (OtherError "ApiException") "(503) Service Unavailable") Hdown eq_refl).
  - exact (failed_query_is_answered (rt := sample_runtime) store_interrupted msg_health []
             _ _ (Exn (OtherError "KeyboardInterrupt") "") Hint eq_refl).
Defined.

Lemma bad_parameter_is_not_queried_witness :
  handle_alerts_critical (rt := sample_runtime) store_down
    (PDict [("since_minutes", PStr "soon")]) []
  = (Raise (Exn ValueError "invalid literal for int() with base 10: 'soon'"), [])
  /\ handle_anomaly_temperature (rt := sample_runtime) store_down
       (PDict [("source_device", PStr "pump-7"); ("threshold", PNone)]) []
     = (Raise (Exn TypeError
                 "float() argument must be a string or a real number, not 'NoneType'"),
        []).
Proof.
  apply (bad_parameter_is_not_queried (rt := sample_runtime) store_down
           (PDict [("since_minutes", PStr "soon")])
           (PDict [("source_device", PStr "pump-7"); ("threshold", PNone)]) []);
    vm_compute; reflexivity.
Defined.

Lemma sample_events_read :
  Forall2 (reads_as (rt := sample_runtime)) (all_records sample_alert_tables) sample_events.
Proof. repeat constructor; eexists; split; reflexivity. Qed.

Lemma summary_counts_every_event_witness :
  exists rows counts,
    fst (handle_alerts_critical (rt := sample_runtime) (store_of sample_alert_tables)
           (PDict []) [])
    = Ok (PDict [("status", PStr "success");
                 ("data", PList rows);
                 ("summary", PList (map summary_entry counts))])
    /\ total counts = 3
    /\ List.length rows = 3%nat.
Proof.
  destruct (summary_counts_every_event (rt := sample_runtime) (store_of sample_alert_tables)
              (PDict []) 15 8 [] sample_alert_tables sample_events
              eq_refl eq_refl eq_refl sample_events_read)
    as (rows & counts & Hrun & Htotal & Hlen).
  exists rows, counts. split; [exact Hrun|]. split.
  - rewrite Htotal, Hlen. reflexivity.
  - rewrite Hlen. reflexivity.
Defined.

Lemma summary_is_sorted_by_device_witness :
  exists counts,
    fst (handle_alerts_critical (rt := sample_runtime) (store_of sample_alert_tables)
           (PDict []) [])
    = Ok (PDict [("status", PStr "success");
                 ("data", PList (map event_dict sample_events));
                 ("summary", PList (map summary_entry counts))])
    /\ StronglySorted (fun a b => String.compare (fst a) (fst b) = Lt) counts.
Proof.
  apply (summary_is_sorted_by_device (rt := sample_runtime) (store_of sample_alert_tables)
           (PDict []) 15 8 [] sample_alert_tables sample_events
           eq_refl eq_refl eq_refl sample_events_read).
Defined.

Lemma first_failing_event_decides_witness :
  alert_row (rt := sample_runtime)
    (event_row "2024-05-01T10:01:00+00:00" "e2" "A" "overheat" (PStr "high"))
  = Raise (Exn ValueError "invalid literal for int() with base 10: 'high'")
  /\ handle_alerts_critical (rt := sample_runtime) (store_of sample_bad_alert_tables)
       (PDict []) []
     = (Raise (Exn ValueError "invalid literal for int() with base 10: 'high'"),
        [] ++ [Queried (alerts_flux (rt := sample_runtime) "-15m" 8) "plant"]).
Proof.
  split; [reflexivity|].
  apply (first_failing_event_decides (rt := sample_runtime)
           (store_of sample_bad_alert_tables) (PDict []) 15 8 [] sample_bad_alert_tables
           [event_row "2024-05-01T10:02:00+00:00" "e3" "A" "overheat" (PInt 9)]
           [ {| ev_time := "2024-05-01T10:02:00+00:00"; ev_id := PStr "e3";
                ev_device := "A"; ev_type := PStr "overheat"; ev_criticality := 9 |} ]
           (event_row "2024-05-01T10:01:00+00:00" "e2" "A" "overheat" (PStr "high"))
           [event_row "2024-05-01T10:00:00+00:00" "e1" "B" "vibration" (PInt 8)]);
    try reflexivity.
  repeat constructor; eexists; split; reflexivity.
Defined.

Lemma classify_is_monotone_witness :
  num_Q (NFloat (float_lit 95)) = Some (Qmake 6685030696878080 70368744177664)
  /\ (inject_Z 75 <= Qmake 6685030696878080 70368744177664)%Q
  /\ (severity (classify (NInt 75)) <= severity (classify (NFloat (float_lit 95))))%nat.
Proof.
  split; [reflexivity|]. split; [discriminate|].
  apply (classify_is_monotone (NInt 75) (NFloat (float_lit 95)) (inject_Z 75)
           (Qmake 6685030696878080 70368744177664)).
  - reflexivity.
  - reflexivity.
  - discriminate.
Defined.


Lemma device_health_of_nan_and_infinity_witness :
  last_opt (samples (all_records (series [PInt 95; PFloat S754_nan])))
  = Some (NFloat S754_nan)
  /\ fst (handle_device_health (rt := sample_runtime)
            (store_of (series [PInt 95; PFloat S754_nan])) sample_health_params [])
     = Ok (PDict [("status", PStr "success");
                  ("data", PDict [("device", PStr "pump-7"); ("health", PStr "ok")])]).
Proof.
  split; [reflexivity|].
  apply (device_health_of_nan_and_infinity (rt := sample_runtime)
           (store_of (series [PInt 95; PFloat S754_nan])) sample_health_params
           (PStr "pump-7") [] (series [PInt 95; PFloat S754_nan]) S754_nan);
    reflexivity.
Defined.

Lemma device_health_row_without_field_witness :
  assoc "_field"
    (flux_values (event_row "2024-05-01T10:00:00+00:00" "e1" "B" "vibration" (PInt 8)))
  = None
  /\ handle_device_health (rt := sample_runtime)
       (store_of
          [ {| records :=
                 [metric "2024-05-01T10:00:00+00:00" (PInt 95);
                  event_row "2024-05-01T10:00:00+00:00" "e1" "B" "vibration" (PInt 8);
                  metric "2024-05-01T10:02:00+00:00" (PInt 50)] |} ])
       sample_health_params []
     = (Raise (Exn KeyError "'_field'"),
        [] ++ [Queried (health_flux (rt := sample_runtime) (PStr "pump-7")) "plant"]).
Proof.
  split; [reflexivity|].
  apply (device_health_row_without_field (rt := sample_runtime) _ sample_health_params
           (PStr "pump-7") []
           [ {| records :=
                  [metric "2024-05-01T10:00:00+00:00" (PInt 95);
                   event_row "2024-05-01T10:00:00+00:00" "e1" "B" "vibration" (PInt 8);
                   metric "2024-05-01T10:02:00+00:00" (PInt 50)] |} ]
           [metric "2024-05-01T10:00:00+00:00" (PInt 95)]
           (event_row "2024-05-01T10:00:00+00:00" "e1" "B" "vibration" (PInt 8))
           [metric "2024-05-01T10:02:00+00:00" (PInt 50)]);
    reflexivity.
Defined.

Lemma anomaly_never_divides_by_zero_witness :
  fst (handle_anomaly_temperature (rt := sample_runtime)
         (store_of (series [PFloat (float_lit 20); PStr "n/a"])) sample_health_params [])
  = Raise (Exn TypeError "unsupported operand type(s) for /: 'str' and 'float'")
  /\ exn_cls (Exn TypeError "unsupported operand type(s) for /: 'str' and 'float'")
     <> ZeroDivisionError.
Proof.
  assert (Hrun : fst (handle_anomaly_temperature (rt := sample_runtime)
                        (store_of (series [PFloat (float_lit 20); PStr "n/a"]))
                        sample_health_params [])
                 = Raise (Exn TypeError
                            "unsupported operand type(s) for /: 'str' and 'float'"))
    by (vm_compute; reflexivity).
  split; [exact Hrun|].
  apply (anomaly_never_divides_by_zero (rt := sample_runtime)
           (store_of (series [PFloat (float_lit 20); PStr "n/a"])) sample_health_params []);
    [|exact Hrun].
  intros flux org e' H. discriminate.
Defined.

Lemma anomaly_reads_first_and_last_only_witness :
  hd PNone (field_values (all_records
              (series [PFloat (float_lit 20); PFloat (float_lit 99); PFloat (float_lit 30)])))
  = hd PNone (field_values (all_records (series [PFloat (float_lit 20); PFloat (float_lit 30)])))
  /\ handle_anomaly_temperature (rt := sample_runtime)
       (store_of (series [PFloat (float_lit 20); PFloat (float_lit 99); PFloat (float_lit 30)]))
       sample_health_params []
     = handle_anomaly_temperature (rt := sample_runtime)
         (store_of (series [PFloat (float_lit 20); PFloat (float_lit 30)]))
         sample_health_params [].
Proof.
  split; [reflexivity|].
  apply (anomaly_reads_first_and_last_only (rt := sample_runtime) _ _ sample_health_params
           (PStr "pump-7") default_threshold 20 []
           (series [PFloat (float_lit 20); PFloat (float_lit 99); PFloat (float_lit 30)])
           (series [PFloat (float_lit 20); PFloat (float_lit 30)]));
    try reflexivity; simpl; lia.
Defined.

Lemma anomaly_rejects_text_reading_witness :
  as_num (last (field_values (all_records (series [PFloat (float_lit 20); PStr "n/a"]))) PNone)
  = None
  /\ handle_anomaly_temperature (rt := sample_runtime)
       (store_of (series [PFloat (float_lit 20); PStr "n/a"])) sample_health_params []
     = (Raise (Exn TypeError "unsupported operand type(s) for /: 'str' and 'float'"),
        [] ++ [Queried (anomaly_flux (rt := sample_runtime) (PStr "pump-7") 20) "plant"]).
Proof.
  split; [reflexivity|].
  apply (anomaly_rejects_text_reading (rt := sample_runtime) _ sample_health_params
           (PStr "pump-7") default_threshold 20 []
           (series [PFloat (float_lit 20); PStr "n/a"]));
    try reflexivity; try (simpl; lia).
  right. split; [reflexivity | vm_compute; reflexivity].
Defined.

Lemma run_without_credentials_witness :
  Startup.getenv (Startup.environ Startup.sample_world_without_bucket) "INFLUXDB_BUCKET"
  = Some ""
  /\ Startup.run Startup.sample_world_without_bucket []
     = (Raise (Startup.SystemExit 1),
        [] ++ [Startup.LogError "Missing InfluxDB credentials."]).
Proof.
  split; [reflexivity|].
  apply (run_without_credentials Startup.sample_world_without_bucket [] "INFLUXDB_BUCKET");
    simpl; auto.
Defined.

Lemma run_with_dead_store_witness :
  Startup.credentials Startup.sample_world_dead_store = true
  /\ Startup.ping Startup.sample_world_dead_store = false
  /\ Startup.run Startup.sample_world_dead_store []
     = (Raise (Startup.SystemExit 1),
        [] ++ [Startup.OpenClient "http://influxdb:8086" (Some "s3cr3t") (Some "plant");
               Startup.Ping;
               Startup.LogCritical "InfluxDB ping failed."]).
Proof.
  split; [reflexivity|]. split; [reflexivity|].
  apply (run_with_dead_store Startup.sample_world_dead_store []); reflexivity.
Defined.

Lemma run_serves_until_interrupted_witness :
  Startup.starts Startup.sample_world = true
  /\ Startup.run Startup.sample_world []
     = (Raise (Exn (OtherError "CancelledError") ""),
        [] ++ [Startup.OpenClient "http://influxdb:8086" (Some "s3cr3t") (Some "plant");
               Startup.Ping;
               Startup.Connect "nats://bus:4222";
               Startup.Subscribe "reader.query";
               Startup.LogInfo "Subscribed to NATS subject 'reader.query'"]
           ++ repeat (Startup.Sleep 1) 3
           ++ [Startup.CloseBus; Startup.CloseClient]).
Proof.
  split; [reflexivity|].
  apply (run_serves_until_interrupted Startup.sample_world []); reflexivity.
Defined.
